(** * Decon: a shallow embedding of [decon.py]

    [decon.py] is a command-line wrapper around [nmap]: it parses two
    options, checks that [nmap] answers [--version], creates a directory
    named after the target under the user's home, runs one of two fixed
    [nmap] command lines, and tees the child's output to the terminal and
    to a timestamped log file.

    The program is effectful throughout, so it is embedded in a small
    reader/state/exception monad:
    - the reader part ([Env]) holds what the outside world decides: the
      home directory, the clock, the help text of [argparse], whether
      [mkdir] and [open] succeed, and how a child process behaves for a
      given command line;
    - the state part ([World]) holds what the program changes: the text
      written to the terminal, the files and directories on disk, and the
      command lines handed to the operating system;
    - the exception part ([Outcome]) distinguishes a normal return, a
      raised Python exception and [sys.exit]. *)

From Stdlib Require Import ZArith Ascii.
From stdpp Require Import gmap strings list fin_maps pretty.

Local Open Scope Z_scope.

(** ** Strings *)

Module Str.

(** The line feed, written ["\n"] in the Python source. *)
Definition nl : string := String "010"%char "".

(** [sep.join(l)]. *)
Definition join (sep : string) (l : list string) : string :=
  String.concat sep l.

(** [s * n]. *)
Fixpoint repeat (s : string) (n : nat) : string :=
  match n with
  | O => ""
  | S n' => s +:+ repeat s n'
  end.

Definition upper_ascii (c : ascii) : ascii :=
  let n := nat_of_ascii c in
  if (97 <=? n)%nat && (n <=? 122)%nat then ascii_of_nat (n - 32) else c.

(** [s.isascii()]. A [string] here is the UTF-8 encoding of a Python
    [str]; it is ASCII when every byte is below 128. *)
Fixpoint isascii (s : string) : bool :=
  match s with
  | "" => true
  | String c s' => (nat_of_ascii c <? 128)%nat && isascii s'
  end.

(** [s.upper()] for a string [s] with [isascii s = true]: the letters
    [a] to [z] are raised and every other character is kept. Python
    also raises the letters outside ASCII, which this function leaves
    alone, so it says nothing about [s.upper()] for other strings. The
    program upper-cases the mode only; the modes [argparse] lets through
    are ["ctf"] and ["real"]. *)
Fixpoint upper (s : string) : string :=
  match s with
  | "" => ""
  | String c s' => String (upper_ascii c) (upper s')
  end.

(** [str(n)] for a Python [int]. *)
Definition of_Z (n : Z) : string := pretty n.

(** The concatenation of a list of strings. *)
Fixpoint concat (l : list string) : string :=
  match l with
  | [] => ""
  | x :: l' => x +:+ concat l'
  end.

(** [s.split("/")]. *)
Fixpoint split_slash (s : string) : list string :=
  match s with
  | "" => [""]
  | String c s' =>
      if decide (c = "/"%char) then "" :: split_slash s'
      else match split_slash s' with
           | [] => [String c ""]
           | h :: t => String c h :: t
           end
  end.

End Str.

Abbreviation nl := Str.nl.

(** ** [pathlib.PurePosixPath] *)

(** A path is its root ([""], ["/"] or ["//"]) and its components.
    [pathlib] normalises on construction: empty components and ["."] are
    dropped, [".."] is kept. *)
Record Path := mkPath { root : string; parts : list string }.

Module Pathlib.

(** [posixpath.splitroot]: one leading slash, or three and more, give
    the root ["/"]; exactly two give ["//"]. *)
Definition splitroot (s : string) : string * string :=
  match s with
  | String "/" (String "/" (String "/" r)) => ("/", String "/" (String "/" r))
  | String "/" (String "/" r) => ("//", r)
  | String "/" r => ("/", r)
  | _ => ("", s)
  end.

Definition keep_part (x : string) : bool :=
  negb (bool_decide (x = "")) && negb (bool_decide (x = ".")).

(** [PurePosixPath(s)]. *)
Definition parse (s : string) : Path :=
  let '(r, rel) := splitroot s in
  mkPath r (List.filter keep_part (Str.split_slash rel)).

(** [p / s]: an absolute right operand replaces the left one. *)
Definition joinpath (p : Path) (s : string) : Path :=
  let q := parse s in
  if decide (root q = "") then mkPath (root p) (parts p ++ parts q) else q.

(** [str(p)]. *)
Definition str (p : Path) : string :=
  match root p, parts p with
  | "", [] => "."
  | r, ps => r +:+ Str.join "/" ps
  end.

(** The paths [p.mkdir(parents=True)] may have to create: [p] and each
    of its ancestors below the root. *)
Definition self_and_parents (p : Path) : list Path :=
  (fun n => mkPath (root p) (take (S n) (parts p))) <$> seq 0 (length (parts p)).

(** The ancestors of [p] below the root, outermost first: the paths
    [p.mkdir(parents=True)] creates, in this order, before it comes to
    [p] itself. *)
Definition ancestors (p : Path) : list Path :=
  (fun n => mkPath (root p) (take (S n) (parts p)))
    <$> seq 0 (pred (length (parts p))).

End Pathlib.

Notation "p // s" := (Pathlib.joinpath p s) (at level 40, left associativity).

(** ** [datetime] *)

Record DateTime := mkDateTime {
  year : nat; month : nat; day : nat;
  hour : nat; minute : nat; second : nat
}.

Module Datetime.

Definition digit (n : nat) : ascii := ascii_of_nat (48 + n mod 10).

Definition zfill2 (n : nat) : string :=
  String (digit (n / 10)) (String (digit n) "").

Definition zfill4 (n : nat) : string :=
  String (digit (n / 1000)) (String (digit (n / 100))
    (String (digit (n / 10)) (String (digit n) ""))).

(** [d.strftime("%Y%m%d_%H%M%S")]. A [datetime] has a year between 1
    and 9999, and [%Y] prints the four digits of any year from 1000
    on, which every reading of [datetime.now()] is. *)
Definition strftime (d : DateTime) : string :=
  zfill4 (year d) +:+ zfill2 (month d) +:+ zfill2 (day d) +:+ "_"
  +:+ zfill2 (hour d) +:+ zfill2 (minute d) +:+ zfill2 (second d).

(** The ranges of the fields of a [datetime]. *)
Definition valid (d : DateTime) : Prop :=
  1 <= Z.of_nat (year d) <= 9999
  /\ (1 <= month d <= 12 /\ 1 <= day d <= 31
      /\ hour d <= 23 /\ minute d <= 59 /\ second d <= 59)%nat.

End Datetime.

(** ** Exceptions and child processes *)

(** The classes of [Exception] the program can meet. [SystemExit] is the
    [Exit] outcome below; it is no [Exception] and no handler of the
    program catches it. *)
Inductive ExnClass :=
| FileNotFoundError
| PermissionError
| FileExistsError
| NotADirectoryError
| OSError
| CalledProcessError
| UnicodeDecodeError.

#[global] Instance ExnClass_eq_dec : EqDecision ExnClass.
Proof. solve_decision. Defined.

(** An exception: its class and [str(e)]. *)
Record PyExn := mkExn { exn_class : ExnClass; exn_str : string }.

(** How the output stream of a started child ends: the child closes it
    and exits with a return code, or reading it raises. *)
Inductive ChildEnd :=
| Exited (returncode : Z)
| ReadError (e : PyExn).

(** What the operating system does with a command line: it fails to
    start it, or the child writes lines on its merged stdout/stderr and
    ends. *)
Inductive Child :=
| SpawnError (e : PyExn)
| Spawned (out : list string) (fin : ChildEnd).

(** ** The outside world and the program's effects *)

(** What the outside world decides. [format_help] is the text
    [argparse] lays out from the declarations of [main], the name the
    program was started under and the width of the terminal.
    [mkdir_made] is read only when [mkdir_error] gives an exception. *)
Record Env := mkEnv {
  home : Path;                                (* Path.home() *)
  now : DateTime;                             (* datetime.now() *)
  format_help : string;                       (* parser.format_help() *)
  mkdir_error : Path -> option PyExn;         (* does mkdir raise? *)
  mkdir_made : Path -> nat;                   (* ancestors made before it does *)
  open_error : Path -> option PyExn;          (* does open(_, 'w') raise? *)
  child : list string -> Child                (* the behaviour of a command *)
}.

Record World := mkWorld {
  stdout : list string;                       (* one entry per write *)
  files : gmap string string;                 (* path |-> content *)
  dirs : gset string;
  spawned : list (list string)                (* command lines given to Popen *)
}.

Inductive Outcome (A : Type) :=
| Ret (a : A)
| Raise (e : PyExn)
| Exit (code : Z).
Arguments Ret {A} a.
Arguments Raise {A} e.
Arguments Exit {A} code.

Definition M (A : Type) : Type := Env -> World -> Outcome A * World.

Definition ret {A} (a : A) : M A := fun _ w => (Ret a, w).

Definition bind {A B} (m : M A) (k : A -> M B) : M B :=
  fun env w =>
    match m env w with
    | (Ret a, w') => k a env w'
    | (Raise e, w') => (Raise e, w')
    | (Exit c, w') => (Exit c, w')
    end.

Declare Scope py_scope.
Delimit Scope py_scope with py.
Notation "x <- m ;; k" := (bind m (fun x => k))
  (at level 100, m at next level, right associativity) : py_scope.
Notation "m ;; k" := (bind m (fun _ => k))
  (at level 100, right associativity) : py_scope.
Local Open Scope py_scope.

Definition raise {A} (e : PyExn) : M A := fun _ w => (Raise e, w).

(** [sys.exit(code)]. *)
Definition sys_exit {A} (code : Z) : M A := fun _ w => (Exit code, w).

(** [try: body except <classes> as e: handler(e)]. *)
Definition try_except {A} (body : M A) (catches : ExnClass -> bool)
    (handler : PyExn -> M A) : M A :=
  fun env w =>
    match body env w with
    | (Raise e, w') =>
        if catches (exn_class e) then handler e env w' else (Raise e, w')
    | r => r
    end.

(** [except Exception]: every class of [ExnClass]. *)
Definition Exception : ExnClass -> bool := fun _ => true.

Definition ask {A} (f : Env -> A) : M A := fun env w => (Ret (f env), w).

Definition modify (f : World -> World) : M unit := fun _ w => (Ret tt, f w).

(** [for x in l: body(x)]. *)
Fixpoint for_each {A} (l : list A) (body : A -> M unit) : M unit :=
  match l with
  | [] => ret tt
  | x :: l' => body x ;; for_each l' body
  end.

(** ** Primitive effects *)

Definition set_stdout (f : list string -> list string) (w : World) : World :=
  mkWorld (f (stdout w)) (files w) (dirs w) (spawned w).

Definition set_files (f : gmap string string -> gmap string string)
    (w : World) : World :=
  mkWorld (stdout w) (f (files w)) (dirs w) (spawned w).

Definition set_dirs (f : gset string -> gset string) (w : World) : World :=
  mkWorld (stdout w) (files w) (f (dirs w)) (spawned w).

Definition set_spawned (f : list (list string) -> list (list string))
    (w : World) : World :=
  mkWorld (stdout w) (files w) (dirs w) (f (spawned w)).

(** [print(s, end=e)]. *)
Definition print_end (s e : string) : M unit :=
  modify (set_stdout (fun out => out ++ [s +:+ e])).

(** [print(s)]. *)
Definition print (s : string) : M unit := print_end s nl.

(** [sys.stdout.write(s)]. *)
Definition stdout_write (s : string) : M unit :=
  modify (set_stdout (fun out => out ++ [s])).

(** [p.mkdir(parents=True, exist_ok=True)]. The call creates the missing
    ancestors from the outermost inwards and [p] last. When it raises,
    it raises at one of these paths, and the ancestors before that one
    stay on disk: [mkdir_made] tells how many of them there are. [p]
    itself is not there after a call that raised. *)
Definition mkdir (p : Path) : M unit :=
  err <- ask (fun env => mkdir_error env p) ;;
  match err with
  | Some e =>
      made <- ask (fun env => mkdir_made env p) ;;
      modify (set_dirs (fun ds =>
        ds ∪ list_to_set (Pathlib.str <$> take made (Pathlib.ancestors p)))) ;;
      raise e
  | None =>
      modify (set_dirs (fun ds =>
        ds ∪ list_to_set (Pathlib.str <$> Pathlib.self_and_parents p)))
  end.

(** An open file is named by the key of its content in [files]. *)
Definition File := string.

(** [f.write(s)]. Buffering is not modelled: every path through
    [run_command] closes the file before it returns. *)
Definition write (f : File) (s : string) : M unit :=
  modify (set_files (alter (fun content => content +:+ s) f)).

(** [with open(p, 'w') as f: body(f)]: the file is created or truncated;
    leaving the block, normally or by an exception, closes it. *)
Definition with_open_w {A} (p : Path) (body : File -> M A) : M A :=
  err <- ask (fun env => open_error env p) ;;
  match err with
  | Some e => raise e
  | None =>
      modify (set_files (insert (Pathlib.str p) "")) ;;
      body (Pathlib.str p)
  end.

(** A started child: the lines it will write and how its stream ends. *)
Record Process := mkProcess { proc_stdout : list string; proc_end : ChildEnd }.

(** [subprocess.Popen(cmd, stdout=PIPE, stderr=STDOUT, ...)]. *)
Definition Popen (cmd : list string) : M Process :=
  modify (set_spawned (fun l => l ++ [cmd])) ;;
  c <- ask (fun env => child env cmd) ;;
  match c with
  | SpawnError e => raise e
  | Spawned out fin => ret (mkProcess out fin)
  end.

(** [for line in process.stdout: body(line)]. *)
Definition for_stdout (p : Process) (body : string -> M unit) : M unit :=
  for_each (proc_stdout p) body ;;
  match proc_end p with
  | Exited _ => ret tt
  | ReadError e => raise e
  end.

(** [process.wait()], giving [process.returncode]. *)
Definition wait (p : Process) : M Z :=
  match proc_end p with
  | Exited rc => ret rc
  | ReadError e => raise e
  end.

(** [subprocess.run(cmd, capture_output=True, check=True)]: the output
    is captured and dropped; a return code other than zero raises
    [CalledProcessError]. No handler of the program prints that
    exception, so its text is kept short. *)
Definition subprocess_run_check (cmd : list string) : M unit :=
  p <- Popen cmd ;;
  for_stdout p (fun _ => ret tt) ;;
  rc <- wait p ;;
  if rc =? 0 then ret tt
  else raise (mkExn CalledProcessError
                ("non-zero exit status " +:+ Str.of_Z rc)).

(** ** [class Enumerator] *)

Record Enumerator := mkEnumerator {
  target : string;
  mode : string;
  output_dir : Path
}.

Definition setup_output_dir (self : Enumerator) : M unit :=
  mkdir (output_dir self) ;;
  print ("[*] Output directory: " +:+ Pathlib.str (output_dir self)).

(** [Enumerator.__init__]. *)
Definition Enumerator_init (target mode : string) : M Enumerator :=
  h <- ask home ;;
  let self := mkEnumerator target mode (h // target) in
  setup_output_dir self ;;
  ret self.

(** [self.output_dir / f"{timestamp}_{output_file}"]. *)
Definition output_path (self : Enumerator) (timestamp output_file : string)
    : Path :=
  output_dir self // (timestamp +:+ "_" +:+ output_file).

Definition run_command (self : Enumerator) (cmd : list string)
    (output_file : string) : M bool :=
  d <- ask now ;;
  let timestamp := Datetime.strftime d in
  let output_path := output_path self timestamp output_file in
  print (nl +:+ "[+] Running: " +:+ Str.join " " cmd) ;;
  print ("[*] Saving to: " +:+ Pathlib.str output_path) ;;
  try_except
    (returncode <- with_open_w output_path (fun f =>
       write f ("# Command: " +:+ Str.join " " cmd +:+ nl) ;;
       write f ("# Timestamp: " +:+ timestamp +:+ nl) ;;
       write f ("# Target: " +:+ target self +:+ nl) ;;
       write f ("#" +:+ Str.repeat "=" 70 +:+ nl +:+ nl) ;;
       process <- Popen cmd ;;
       for_stdout process (fun line =>
         print_end line "" ;;
         write f line) ;;
       wait process) ;;
     (if returncode =? 0 then
        print "[✓] Completed successfully"
      else
        print ("[!] Command exited with code " +:+ Str.of_Z returncode)) ;;
     ret true)
    Exception
    (fun e =>
       print ("[✗] Error running command: " +:+ exn_str e) ;;
       ret false).

Definition nmap_ctf (self : Enumerator) : M unit :=
  let cmd := ["nmap"; "-sC"; "-sV"; "-Pn"; "-T4"; target self] in
  run_command self cmd "nmap_ctf.txt" ;;
  ret tt.

Definition nmap_realworld (self : Enumerator) : M unit :=
  let cmd := ["nmap"; "-sV"; "-Pn"; "--open"; "-p-"; target self] in
  run_command self cmd "nmap_full.txt" ;;
  ret tt.

Definition run_enumeration (self : Enumerator) : M unit :=
  print (nl +:+ Str.repeat "=" 70) ;;
  print ("Smart Enumerator - " +:+ Str.upper (mode self) +:+ " Mode") ;;
  print ("Target: " +:+ target self) ;;
  print (Str.repeat "=" 70) ;;
  (if decide (mode self = "ctf") then nmap_ctf self
   else if decide (mode self = "real") then nmap_realworld self
   else ret tt) ;;
  print (nl +:+ Str.repeat "=" 70) ;;
  print "[✓] Enumeration complete!" ;;
  print ("[*] Results saved in: " +:+ Pathlib.str (output_dir self)) ;;
  print (Str.repeat "=" 70 +:+ nl).

(** ** [main] *)

(** The command line, as the steps [parser.parse_args()] takes on it,
    from left to right. [argparse] is library code: the program declares
    [-t/--target] and [-m/--mode] and inherits [-h/--help], and how the
    words of [sys.argv] are cut into these steps is the library's
    business and is not modelled. A step is one of:
    - [OptTarget v], [OptMode v]: the option takes the value [v]. The
      attached spelling [--target=v] gives any [v]; the separate
      spelling ([-t v], [--target v]) gives [v] only when [argparse]
      does not read the word [v] as an option, which is so for the
      empty string and for every word that does not start with a dash;
    - [OptHelp]: the help action runs, for [-h] or [--help];
    - [OptError]: [argparse] stops with a usage error that does not
      depend on the declarations of the program: an option is left
      without its value ([-t] as the last word, or [-t -x]), or [--help]
      is given one;
    - [Unrecognized s]: a word [s] that belongs to no declared option,
      an option [argparse] does not know or a positional argument. It is
      set aside and reported when all the words have been read. *)
Inductive CliOpt :=
| OptTarget (v : string)
| OptMode (v : string)
| OptHelp
| OptError
| Unrecognized (s : string).

(** [argparse.Namespace]: both attributes start as [None]. *)
Record Namespace := mkNamespace {
  ns_target : option string;
  ns_mode : option string
}.

Record Args := mkArgs { args_target : string; args_mode : string }.

(** The [choices] of [--mode]. *)
Definition mode_choices : list string := ["ctf"; "real"].

(** How the pass over the command line ends: all of it was read, the
    help was asked for, or a usage error stopped it. *)
Inductive Consumed :=
| Done (ns : Namespace) (extras : list string)
| Help
| Failed.

(** One pass over the steps: a later value replaces an earlier one; a
    mode outside [choices] is an error where it is met; [-t] has neither
    [type] nor [choices], so its value is stored as it is; the help
    action ends the pass where it is met; unrecognized words are
    collected. *)
Fixpoint consume (argv : list CliOpt) (ns : Namespace) (extras : list string)
    : Consumed :=
  match argv with
  | [] => Done ns extras
  | OptTarget v :: rest =>
      consume rest (mkNamespace (Some v) (ns_mode ns)) extras
  | OptMode v :: rest =>
      if bool_decide (v ∈ mode_choices)
      then consume rest (mkNamespace (ns_target ns) (Some v)) extras
      else Failed
  | OptHelp :: _ => Help
  | OptError :: _ => Failed
  | Unrecognized s :: rest => consume rest ns (extras ++ [s])
  end.

(** [parser.parse_args()]. The help action writes the help text to
    stdout and ends the program through [sys.exit(0)]. [parser.error]
    ends it through [sys.exit(2)]; its usage message goes to stderr,
    which is not modelled. Both options are declared [required=True];
    a missing one is reported before the unrecognized words are. *)
Definition parse_args (argv : list CliOpt) : M Args :=
  match consume argv (mkNamespace None None) [] with
  | Help =>
      h <- ask format_help ;;
      stdout_write h ;;
      sys_exit 0
  | Failed => sys_exit 2
  | Done ns extras =>
      match ns_target ns, ns_mode ns with
      | Some t, Some m =>
          match extras with
          | [] => ret (mkArgs t m)
          | _ :: _ => sys_exit 2
          end
      | _, _ => sys_exit 2
      end
  end.

Definition preflight_catches (c : ExnClass) : bool :=
  bool_decide (c = CalledProcessError) || bool_decide (c = FileNotFoundError).

Definition main (argv : list CliOpt) : M unit :=
  args <- parse_args argv ;;
  try_except
    (subprocess_run_check ["nmap"; "--version"])
    preflight_catches
    (fun _ =>
       print "[✗] Error: nmap is not installed or not in PATH" ;;
       sys_exit 1) ;;
  enum <- Enumerator_init (args_target args) (args_mode args) ;;
  run_enumeration enum.

(** The exit status of the interpreter: 0 when [main] returns, the
    argument of [sys.exit], and 1 after a traceback. *)
Definition exit_status {A} (o : Outcome A) : Z :=
  match o with
  | Ret _ => 0
  | Raise _ => 1
  | Exit code => code
  end.

(** A world in which nothing has happened yet. *)
Definition empty_world : World := mkWorld [] ∅ ∅ [].

(** * What a run leaves behind

    The texts and worlds in terms of which the properties are stated. *)

(** The text [run_command] writes before it starts the child: the
    command line, the timestamp, the target, a separator line and an
    empty line. *)
Definition header_text (self : Enumerator) (cmd : list string)
    (timestamp : string) : string :=
  ("# Command: " +:+ Str.join " " cmd +:+ nl)
  +:+ ("# Timestamp: " +:+ timestamp +:+ nl)
  +:+ ("# Target: " +:+ target self +:+ nl)
  +:+ ("#" +:+ Str.repeat "=" 70 +:+ nl +:+ nl).

(** The two lines [run_command] prints first. *)
Definition announce (cmd : list string) (p : Path) : list string :=
  [ (nl +:+ "[+] Running: " +:+ Str.join " " cmd) +:+ nl;
    ("[*] Saving to: " +:+ Pathlib.str p) +:+ nl ].

Definition error_line (e : PyExn) : string :=
  ("[✗] Error running command: " +:+ exn_str e) +:+ nl.

Definition success_line : string := "[✓] Completed successfully" +:+ nl.

Definition warning_line (returncode : Z) : string :=
  ("[!] Command exited with code " +:+ Str.of_Z returncode) +:+ nl.

(** The path of the log of a run of [run_command] under [env]. *)
Definition log_path (self : Enumerator) (output_file : string) (env : Env)
    : Path :=
  output_path self (Datetime.strftime (now env)) output_file.

(** The world [run_command] leaves once the log file was opened and the
    command given to [Popen]: the tee of [out], then one closing line. *)
Definition after_child (self : Enumerator) (cmd : list string)
    (output_file : string) (env : Env) (w : World)
    (out : list string) (last_line : string) : World :=
  mkWorld
    (stdout w ++ announce cmd (log_path self output_file env)
       ++ out ++ [last_line])
    (<[Pathlib.str (log_path self output_file env) :=
         header_text self cmd (Datetime.strftime (now env))
         +:+ Str.concat out]> (files w))
    (dirs w) (spawned w ++ [cmd]).

(** What a command line contributes to such a run: the lines read from
    the child, the line printed last, and the value returned. *)
Definition child_lines (c : Child) : list string :=
  match c with
  | SpawnError _ => []
  | Spawned out _ => out
  end.

Definition closing_line (c : Child) : string :=
  match c with
  | SpawnError e | Spawned _ (ReadError e) => error_line e
  | Spawned _ (Exited returncode) =>
      if returncode =? 0 then success_line else warning_line returncode
  end.

Definition child_ok (c : Child) : bool :=
  match c with
  | Spawned _ (Exited _) => true
  | _ => false
  end.

(** The banners of [run_enumeration]. *)
Definition opening_banner (self : Enumerator) : list string :=
  [ (nl +:+ Str.repeat "=" 70) +:+ nl;
    ("Smart Enumerator - " +:+ Str.upper (mode self) +:+ " Mode") +:+ nl;
    ("Target: " +:+ target self) +:+ nl;
    Str.repeat "=" 70 +:+ nl ].

Definition closing_banner (self : Enumerator) : list string :=
  [ (nl +:+ Str.repeat "=" 70) +:+ nl;
    "[✓] Enumeration complete!" +:+ nl;
    ("[*] Results saved in: " +:+ Pathlib.str (output_dir self)) +:+ nl;
    (Str.repeat "=" 70 +:+ nl) +:+ nl ].

(** The command line and the log name of each mode. *)
Definition ctf_cmd (target : string) : list string :=
  ["nmap"; "-sC"; "-sV"; "-Pn"; "-T4"; target].

Definition real_cmd (target : string) : list string :=
  ["nmap"; "-sV"; "-Pn"; "--open"; "-p-"; target].

(** The preflight command and the line printed when it fails. *)
Definition version_cmd : list string := ["nmap"; "--version"].

Definition preflight_line : string :=
  "[✗] Error: nmap is not installed or not in PATH" +:+ nl.

(** The command line and the log name [run_enumeration] dispatches to,
    by mode. *)
Definition scan (self : Enumerator) : option (list string * string) :=
  if decide (mode self = "ctf") then
    Some (ctf_cmd (target self), "nmap_ctf.txt")
  else if decide (mode self = "real") then
    Some (real_cmd (target self), "nmap_full.txt")
  else None.

(** The two ways the preflight fails that [main] handles: the tool is
    not found, or it runs and returns a code other than zero. *)
Definition tool_absent (env : Env) : Prop :=
  exists e, child env version_cmd = SpawnError e
            /\ exn_class e = FileNotFoundError.

Definition invocation_error (env : Env) : Prop :=
  exists out rc, child env version_cmd = Spawned out (Exited rc) /\ rc <> 0.

(** A failure of the version query that [main] does not handle: the
    tool cannot be started, or its output cannot be read, for a reason
    other than the two its [except] clause names. *)
Definition unhandled_failure (env : Env) (e : PyExn) : Prop :=
  (child env version_cmd = SpawnError e
   \/ exists out, child env version_cmd = Spawned out (ReadError e))
  /\ exn_class e <> CalledProcessError
  /\ exn_class e <> FileNotFoundError.

(** The preflight fails when the version query does anything but run
    and return zero. *)
Definition preflight_fails (env : Env) : Prop :=
  forall out, child env version_cmd <> Spawned out (Exited 0).

(** What [subprocess.run(..., check=True)] makes of a child. *)
Definition checked (c : Child) : Outcome unit :=
  match c with
  | SpawnError e | Spawned _ (ReadError e) => Raise e
  | Spawned _ (Exited rc) =>
      if rc =? 0 then Ret tt
      else Raise (mkExn CalledProcessError
                    ("non-zero exit status " +:+ Str.of_Z rc))
  end.

(** The Enumerator [main] constructs from the parsed arguments. *)
Definition enumerator_of (args : Args) (env : Env) : Enumerator :=
  mkEnumerator (args_target args) (args_mode args)
               (home env // args_target args).

(** ** Sample inputs *)

Module Sample.

Definition kali : Path := Pathlib.parse "/home/kali".

Definition noon : DateTime := mkDateTime 2024 3 9 12 0 0.

Definition midnight : DateTime := mkDateTime 2024 3 10 0 0 0.

(** [nmap] is installed; every scan prints one line and exits with
    [returncode]. *)
Definition nmap_exits (returncode : Z) (cmd : list string) : Child :=
  if decide (cmd = version_cmd) then
    Spawned ["Nmap version 7.94" +:+ nl] (Exited 0)
  else
    Spawned ["Starting Nmap 7.94" +:+ nl] (Exited returncode).

Definition no_such_file : PyExn :=
  mkExn FileNotFoundError "[Errno 2] No such file or directory: 'nmap'".

(** [nmap] is not installed. *)
Definition nmap_missing (cmd : list string) : Child := SpawnError no_such_file.

(** [nmap] answers [--version] and is gone when the scan starts. *)
Definition nmap_vanishes (cmd : list string) : Child :=
  if decide (cmd = version_cmd) then
    Spawned ["Nmap version 7.94" +:+ nl] (Exited 0)
  else SpawnError no_such_file.

(** A help text, cut down to its first line. *)
Definition usage : string :=
  "usage: decon.py [-h] -t TARGET -m {ctf,real}" +:+ nl.

(** A machine on which [mkdir] and [open] succeed. *)
Definition machine (clock : DateTime) (child : list string -> Child) : Env :=
  mkEnv kali clock usage (fun _ => None) (fun _ => 0%nat) (fun _ => None) child.

Definition box : Enumerator :=
  mkEnumerator "10.10.10.1" "ctf" (kali // "10.10.10.1").

Definition site : Enumerator :=
  mkEnumerator "example.com" "real" (kali // "example.com").

End Sample.

(** ** The command line, step by step *)

Definition target_of (o : CliOpt) : option string :=
  match o with
  | OptTarget v => Some v
  | _ => None
  end.

Definition mode_of (o : CliOpt) : option string :=
  match o with
  | OptMode v => Some v
  | _ => None
  end.

(** The values given to [-t] and to [-m], in the order given. *)
Definition targets (argv : list CliOpt) : list string := omap target_of argv.

Definition modes (argv : list CliOpt) : list string := omap mode_of argv.

(** The world the scan of [run_enumeration] leaves, started in [w0]:
    that of the command of the mode, or [w0] when the mode has none. *)
Definition scanned (self : Enumerator) (env : Env) (w0 : World) : World :=
  match scan self with
  | Some (cmd, output_file) => (run_command self cmd output_file env w0).2
  | None => w0
  end.

(** The line [setup_output_dir] prints. *)
Definition output_dir_line (p : Path) : string :=
  ("[*] Output directory: " +:+ Pathlib.str p) +:+ nl.

(** The world [Enumerator.__init__] leaves when [mkdir] succeeds. *)
Definition initialised (p : Path) (w : World) : World :=
  mkWorld (stdout w ++ [output_dir_line p]) (files w)
          (dirs w ∪ list_to_set (Pathlib.str <$> Pathlib.self_and_parents p))
          (spawned w).

(** The world [Enumerator.__init__] leaves when [mkdir] raises: the
    ancestors of the output directory that were made before it did. *)
Definition init_failed (p : Path) (env : Env) (w : World) : World :=
  mkWorld (stdout w) (files w)
          (dirs w ∪ list_to_set
             (Pathlib.str <$> take (mkdir_made env p) (Pathlib.ancestors p)))
          (spawned w).

(** The world in which [main] starts [run_enumeration]: the version
    query has been started, the output directory made and announced. *)
Definition ready (p : Path) (w : World) : World :=
  initialised p (set_spawned (fun l => l ++ [version_cmd]) w).

(** The steps that store a value the declarations allow: a target, or
    a mode among the choices. *)
Definition stored (o : CliOpt) : bool :=
  match o with
  | OptTarget _ => true
  | OptMode v => bool_decide (v ∈ mode_choices)
  | _ => false
  end.

(** The steps the pass goes past: those, and the unrecognized words. *)
Definition passed (o : CliOpt) : bool :=
  match o with
  | Unrecognized _ => true
  | _ => stored o
  end.

Definition unrecognized_of (o : CliOpt) : option string :=
  match o with
  | Unrecognized s => Some s
  | _ => None
  end.

(** The unrecognized words, in the order given. *)
Definition unrecognized (argv : list CliOpt) : list string :=
  omap unrecognized_of argv.

(** The world the help action leaves: the help text on the terminal. *)
Definition helped (env : Env) (w : World) : World :=
  mkWorld (stdout w ++ [format_help env]) (files w) (dirs w) (spawned w).

(** The log [run_command] writes when the child can be started: the
    header, then the lines read from the child. *)
Definition log_text (self : Enumerator) (cmd : list string) (env : Env)
    : string :=
  header_text self cmd (Datetime.strftime (now env))
  +:+ Str.concat (child_lines (child env cmd)).

(** The namespace [consume] builds from [ns]: the last value given to
    each option, or what [ns] held. *)
Definition updated (argv : list CliOpt) (ns : Namespace) : Namespace :=
  mkNamespace
    (match last (targets argv) with Some t => Some t | None => ns_target ns end)
    (match last (modes argv) with Some m => Some m | None => ns_mode ns end).

(** ** More sample inputs *)

Module Scenario.

Definition bad_byte : PyExn :=
  mkExn UnicodeDecodeError
        "'utf-8' codec can't decode byte 0xff in position 0: invalid start byte".

Definition denied : PyExn :=
  mkExn PermissionError "[Errno 13] Permission denied".

(** [nmap] answers [--version]; a scan prints one line, and the next one
    cannot be decoded. *)
Definition nmap_garbled (cmd : list string) : Child :=
  if decide (cmd = version_cmd) then
    Spawned ["Nmap version 7.94" +:+ nl] (Exited 0)
  else
    Spawned ["Starting Nmap 7.94" +:+ nl] (ReadError bad_byte).

(** A machine on which no file can be opened for writing. *)
Definition read_only (clock : DateTime) (child : list string -> Child) : Env :=
  mkEnv Sample.kali clock Sample.usage (fun _ => None) (fun _ => 0%nat)
        (fun _ => Some denied) child.

(** A machine on which no directory can be created. *)
Definition no_mkdir (clock : DateTime) (child : list string -> Child) : Env :=
  mkEnv Sample.kali clock Sample.usage (fun _ => Some denied) (fun _ => 0%nat)
        (fun _ => None) child.

(** A machine without [/home/kali/labs] on which [kali] may create
    directories in their home and nowhere below: making
    [/home/kali/labs/<target>] creates [labs] and then fails. *)
Definition half_made (clock : DateTime) (child : list string -> Child) : Env :=
  mkEnv Sample.kali clock Sample.usage (fun _ => Some denied) (fun _ => 3%nat)
        (fun _ => None) child.

(** An Enumerator built by hand with a mode [argparse] would refuse. *)
Definition udp : Enumerator :=
  mkEnumerator "10.10.10.1" "udp" (Sample.kali // "10.10.10.1").

End Scenario.

(** * Properties *)

Arguments Str.repeat : simpl never.
Arguments Str.join : simpl never.
Arguments Str.of_Z : simpl never.
Arguments Pathlib.str : simpl never.
Arguments Pathlib.joinpath : simpl never.
Arguments Datetime.strftime : simpl never.

(** ** Facts about strings *)

Module StrFacts.

Lemma to_list_app (a b : string) :
  String.list_ascii_of_string (a +:+ b)
  = String.list_ascii_of_string a ++ String.list_ascii_of_string b.
Proof. induction a as [|c a IH]; simpl; [done|]. by rewrite <- IH. Qed.

Lemma to_list_inj (a b : string) :
  String.list_ascii_of_string a = String.list_ascii_of_string b -> a = b.
Proof.
  intros H. rewrite <- (String.string_of_list_ascii_of_string a).
  rewrite <- (String.string_of_list_ascii_of_string b). by rewrite H.
Qed.

Lemma to_list_length (a : string) :
  length (String.list_ascii_of_string a) = String.length a.
Proof. induction a; simpl; congruence. Qed.

Lemma app_nil_l (s : string) : "" +:+ s = s.
Proof. reflexivity. Qed.

Lemma app_nil_r (s : string) : s +:+ "" = s.
Proof. apply to_list_inj. by rewrite to_list_app, List.app_nil_r. Qed.

Lemma app_assoc (a b c : string) : (a +:+ b) +:+ c = a +:+ b +:+ c.
Proof. apply to_list_inj. by rewrite !to_list_app, List.app_assoc. Qed.

Lemma length_app (a b : string) :
  String.length (a +:+ b) = (String.length a + String.length b)%nat.
Proof. by rewrite <- !to_list_length, to_list_app, length_app. Qed.

(** Two concatenations whose left parts have the same length agree part
    by part. *)
Lemma app_inj_length (a b x y : string) :
  String.length a = String.length b ->
  a +:+ x = b +:+ y -> a = b /\ x = y.
Proof.
  intros Hlen Heq. apply (f_equal String.list_ascii_of_string) in Heq.
  rewrite !to_list_app in Heq.
  apply app_inj_1 in Heq as [H1 H2]; [|by rewrite !to_list_length].
  split; by apply to_list_inj.
Qed.

Lemma app_inj_r (a b s : string) : a +:+ s = b +:+ s -> a = b.
Proof.
  intros Heq. apply (f_equal String.list_ascii_of_string) in Heq.
  rewrite !to_list_app in Heq. apply app_inv_tail in Heq.
  by apply to_list_inj.
Qed.

Lemma strftime_length (d : DateTime) :
  String.length (Datetime.strftime d) = 15%nat.
Proof. reflexivity. Qed.

End StrFacts.

(** ** Facts about timestamps *)

Module DatetimeFacts.

Lemma digit_mod (a b : nat) :
  Datetime.digit a = Datetime.digit b -> (a mod 10 = b mod 10)%nat.
Proof.
  unfold Datetime.digit. intros H. apply (f_equal nat_of_ascii) in H.
  assert (a mod 10 < 10)%nat as Ha by (apply Nat.mod_upper_bound; lia).
  assert (b mod 10 < 10)%nat as Hb by (apply Nat.mod_upper_bound; lia).
  rewrite !nat_ascii_embedding in H; lia.
Qed.

(** A number is its last digit and the number of its tens. *)
Lemma last_digit (a b : nat) :
  (a mod 10 = b mod 10)%nat -> (a / 10 = b / 10)%nat -> a = b.
Proof.
  intros Hmod Hdiv.
  rewrite (Nat.div_mod_eq a 10), (Nat.div_mod_eq b 10). by rewrite Hmod, Hdiv.
Qed.

Lemma small_digit (a : nat) : (a < 10)%nat -> (a mod 10 = a)%nat.
Proof. apply Nat.mod_small. Qed.

Lemma zfill2_inj (a b : nat) :
  (a < 100)%nat -> (b < 100)%nat ->
  Datetime.zfill2 a = Datetime.zfill2 b -> a = b.
Proof.
  intros Ha Hb Heq. unfold Datetime.zfill2 in Heq.
  injection Heq as H1 H2.
  apply (digit_mod (a / 10) (b / 10)) in H1. apply digit_mod in H2.
  assert (a / 10 < 10)%nat as Ha'
    by (apply Nat.Div0.div_lt_upper_bound; lia).
  assert (b / 10 < 10)%nat as Hb'
    by (apply Nat.Div0.div_lt_upper_bound; lia).
  apply small_digit in Ha', Hb'.
  apply last_digit; [done | congruence].
Qed.

Lemma zfill4_inj (a b : nat) :
  Z.of_nat a < 10000 -> Z.of_nat b < 10000 ->
  Datetime.zfill4 a = Datetime.zfill4 b -> a = b.
Proof.
  intros Ha Hb Heq. unfold Datetime.zfill4 in Heq.
  injection Heq as H1 H2 H3 H4.
  apply (digit_mod (a / 1000) (b / 1000)) in H1.
  apply (digit_mod (a / 100) (b / 100)) in H2.
  apply (digit_mod (a / 10) (b / 10)) in H3. apply digit_mod in H4.
  assert (a / 1000 = a / 10 / 10 / 10)%nat as Ea
    by by rewrite !Nat.Div0.div_div.
  assert (b / 1000 = b / 10 / 10 / 10)%nat as Eb
    by by rewrite !Nat.Div0.div_div.
  assert (a / 100 = a / 10 / 10)%nat as Ea'
    by by rewrite !Nat.Div0.div_div.
  assert (b / 100 = b / 10 / 10)%nat as Eb'
    by by rewrite !Nat.Div0.div_div.
  rewrite Ea, Eb in H1. rewrite Ea', Eb' in H2.
  assert (a / 10 / 10 / 10 < 10)%nat as Ha'
    by (rewrite <- Ea; apply Nat.Div0.div_lt_upper_bound; lia).
  assert (b / 10 / 10 / 10 < 10)%nat as Hb'
    by (rewrite <- Eb; apply Nat.Div0.div_lt_upper_bound; lia).
  apply small_digit in Ha', Hb'.
  apply last_digit; [done|]. apply last_digit; [done|].
  apply last_digit; [done | congruence].
Qed.

(** At the resolution of a second, the timestamp determines the
    reading of the clock: two readings that differ give two timestamps
    that differ. *)
Lemma strftime_inj (d1 d2 : DateTime) :
  Datetime.valid d1 -> Datetime.valid d2 ->
  Datetime.strftime d1 = Datetime.strftime d2 -> d1 = d2.
Proof.
  destruct d1 as [y1 m1 a1 h1 i1 s1], d2 as [y2 m2 a2 h2 i2 s2].
  unfold Datetime.valid, Datetime.strftime.
  cbn [year month day hour minute second].
  intros (? & ? & ? & ? & ? & ?) (? & ? & ? & ? & ? & ?) Heq.
  apply (StrFacts.app_inj_length (Datetime.zfill4 y1) (Datetime.zfill4 y2))
    in Heq as [Hy Heq]; [|done].
  apply (StrFacts.app_inj_length (Datetime.zfill2 m1) (Datetime.zfill2 m2))
    in Heq as [Hm Heq]; [|done].
  apply (StrFacts.app_inj_length (Datetime.zfill2 a1) (Datetime.zfill2 a2))
    in Heq as [Ha Heq]; [|done].
  apply (StrFacts.app_inj_length "_" "_") in Heq as [_ Heq]; [|done].
  apply (StrFacts.app_inj_length (Datetime.zfill2 h1) (Datetime.zfill2 h2))
    in Heq as [Hh Heq]; [|done].
  apply (StrFacts.app_inj_length (Datetime.zfill2 i1) (Datetime.zfill2 i2))
    in Heq as [Hi Hs]; [|done].
  apply zfill4_inj in Hy; [|lia..]. apply zfill2_inj in Hm; [|lia..].
  apply zfill2_inj in Ha; [|lia..]. apply zfill2_inj in Hh; [|lia..].
  apply zfill2_inj in Hi; [|lia..]. apply zfill2_inj in Hs; [|lia..].
  by subst.
Qed.

End DatetimeFacts.

(** ** The tee loop and [run_command], case by case *)

(** Unfolds the primitive effects, leaving the worlds they build. *)
Ltac unfold_effects :=
  cbv [try_except with_open_w Popen for_stdout wait mkdir
       bind ask print print_end write modify raise ret sys_exit
       set_stdout set_files set_dirs set_spawned Exception];
  cbn [stdout files dirs spawned fst snd proc_stdout proc_end].

(** Every line of the child goes to the terminal and to the end of the
    open file, in order. *)
Lemma for_each_tee (f : File) (lines : list string) :
  forall (env : Env) (w : World) (content : string),
    files w !! f = Some content ->
    for_each lines (fun line => print_end line "" ;; write f line) env w
    = (Ret tt,
       mkWorld (stdout w ++ lines)
               (<[f := content +:+ Str.concat lines]> (files w))
               (dirs w) (spawned w)).
Proof.
  induction lines as [|line rest IH]; intros env w content Hf.
  - destruct w as [o fs ds sp]. cbn [for_each files stdout Str.concat] in *.
    by rewrite StrFacts.app_nil_r, List.app_nil_r, insert_id.
  - destruct w as [o fs ds sp]. cbn [for_each files] in *. unfold_effects.
    erewrite alter_alt_Some by done.
    erewrite IH by apply lookup_insert_eq. cbn [stdout files dirs spawned Str.concat].
    by rewrite StrFacts.app_nil_r, <- List.app_assoc, insert_insert_eq,
      StrFacts.app_assoc.
Qed.

(** [for_each_tee], in the form the loop takes once [unfold_effects] has
    run over its body. *)
Ltac rewrite_tee :=
  let H := fresh "Htee" in
  pose proof for_each_tee as H;
  cbv [bind print_end write modify set_stdout set_files] in H;
  cbn [stdout files dirs spawned fst snd] in H;
  erewrite H; clear H;
  cbn [stdout files dirs spawned fst snd proc_stdout proc_end].

Section RunCommand.

Variables (self : Enumerator) (cmd : list string) (output_file : string).
Variables (env : Env) (w : World).

Let timestamp := Datetime.strftime (now env).
Let path := log_path self output_file env.
Let final := after_child self cmd output_file env w.

Lemma run_command_open_error (e : PyExn) :
  open_error env path = Some e ->
  run_command self cmd output_file env w
  = (Ret false,
     mkWorld (stdout w ++ announce cmd path ++ [error_line e])
             (files w) (dirs w) (spawned w)).
Proof.
  intros Hopen. unfold run_command. unfold_effects.
  fold timestamp. change (output_path self timestamp output_file) with path. rewrite Hopen. unfold_effects.
  by rewrite <- !List.app_assoc.
Qed.

Lemma run_command_spawn_error (e : PyExn) :
  open_error env path = None ->
  child env cmd = SpawnError e ->
  run_command self cmd output_file env w
  = (Ret false,
     mkWorld (stdout w ++ announce cmd path ++ [error_line e])
             (<[Pathlib.str path := header_text self cmd timestamp]> (files w))
             (dirs w) (spawned w ++ [cmd])).
Proof.
  intros Hopen Hchild. unfold run_command. unfold_effects.
  fold timestamp. change (output_path self timestamp output_file) with path. rewrite Hopen. unfold_effects.
  rewrite Hchild. unfold_effects.
  rewrite <- !List.app_assoc, !alter_insert_eq.
  unfold header_text. by rewrite StrFacts.app_nil_l, !StrFacts.app_assoc.
Qed.

Lemma run_command_read_error (out : list string) (e : PyExn) :
  open_error env path = None ->
  child env cmd = Spawned out (ReadError e) ->
  run_command self cmd output_file env w
  = (Ret false, final out (error_line e)).
Proof.
  intros Hopen Hchild. unfold run_command. unfold_effects.
  fold timestamp. change (output_path self timestamp output_file) with path. rewrite Hopen. unfold_effects.
  rewrite Hchild. unfold_effects.
  rewrite_tee.
  2:{ rewrite !alter_insert_eq. apply lookup_insert_eq. }
  unfold_effects. unfold final, after_child, header_text. fold path timestamp.
  rewrite !alter_insert_eq, insert_insert_eq, <- !List.app_assoc.
  by rewrite StrFacts.app_nil_l, !StrFacts.app_assoc.
Qed.

Lemma run_command_exited (out : list string) (returncode : Z) :
  open_error env path = None ->
  child env cmd = Spawned out (Exited returncode) ->
  run_command self cmd output_file env w
  = (Ret true,
     final out
       (if returncode =? 0 then success_line else warning_line returncode)).
Proof.
  intros Hopen Hchild. unfold run_command. unfold_effects.
  fold timestamp. change (output_path self timestamp output_file) with path. rewrite Hopen. unfold_effects.
  rewrite Hchild. unfold_effects.
  rewrite_tee.
  2:{ rewrite !alter_insert_eq. apply lookup_insert_eq. }
  unfold_effects. unfold final, after_child, header_text. fold path timestamp.
  destruct (returncode =? 0); unfold_effects;
    rewrite !alter_insert_eq, insert_insert_eq, <- !List.app_assoc;
    by rewrite StrFacts.app_nil_l, !StrFacts.app_assoc.
Qed.

Lemma run_command_opened :
  open_error env path = None ->
  run_command self cmd output_file env w
  = (Ret (child_ok (child env cmd)),
     final (child_lines (child env cmd)) (closing_line (child env cmd))).
Proof.
  intros Hopen. destruct (child env cmd) as [e|out [rc|e]] eqn:Hchild.
  - rewrite (run_command_spawn_error e) by done.
    unfold final, after_child. cbn [child_ok child_lines closing_line Str.concat].
    by rewrite StrFacts.app_nil_r.
  - by apply run_command_exited.
  - by apply run_command_read_error.
Qed.

(** [run_command] returns to its caller in every case: no exception and
    no exit leaves it. *)
Lemma run_command_returns :
  exists b, (run_command self cmd output_file env w).1 = Ret b.
Proof.
  destruct (open_error env path) as [e|] eqn:Hopen.
  - rewrite (run_command_open_error e) by done. by exists false.
  - rewrite run_command_opened by done. by eexists.
Qed.

(** [run_command] prints, logs the command it starts, and writes at most
    one file, the one at its output path. *)
Lemma run_command_frame :
  let w' := (run_command self cmd output_file env w).2 in
  dirs w' = dirs w /\
  (forall p, p <> Pathlib.str path -> files w' !! p = files w !! p) /\
  exists printed, stdout w' = stdout w ++ announce cmd path ++ printed.
Proof.
  destruct (open_error env path) as [e|] eqn:Hopen.
  - rewrite (run_command_open_error e) by done. cbn [fst snd stdout files dirs].
    split; [done|]. split; [done|]. by eexists.
  - rewrite run_command_opened by done. unfold final, after_child.
    cbn [fst snd stdout files dirs].
    split; [done|]. split; [|by eexists].
    intros p Hp. by rewrite lookup_insert_ne.
Qed.

End RunCommand.

(** ** [run_enumeration] *)

Section RunEnumeration.

Variables (self : Enumerator) (env : Env) (w : World).

(** The world in which the scan of [run_enumeration] starts. *)
Let w0 := set_stdout (fun o => o ++ opening_banner self) w.

Lemma run_enumeration_with (cmd : list string) (output_file : string) :
  (let r := run_command self cmd output_file env w0 in
   match r.1 with Ret _ => (Ret tt, r.2) | Raise e => (Raise e, r.2)
   | Exit c => (Exit c, r.2) end)
  = (Ret tt, (run_command self cmd output_file env w0).2).
Proof.
  cbv zeta. destruct (run_command_returns self cmd output_file env w0) as [b Hb].
  by rewrite Hb.
Qed.

Lemma run_enumeration_ctf :
  mode self = "ctf" ->
  run_enumeration self env w
  = (Ret tt,
     set_stdout (fun o => o ++ closing_banner self)
       (run_command self (ctf_cmd (target self)) "nmap_ctf.txt" env w0).2).
Proof.
  intros Hmode. unfold run_enumeration, nmap_ctf. rewrite Hmode.
  rewrite decide_True by done. unfold_effects.
  pose proof (run_enumeration_with (ctf_cmd (target self)) "nmap_ctf.txt") as H.
  cbv zeta in H. unfold w0, opening_banner, ctf_cmd, set_stdout in *.
  rewrite Hmode in *. rewrite <- !List.app_assoc. cbn [app].
  destruct (run_command _ _ _ _ _) as [o w1]. cbn [fst snd] in *.
  destruct o; simplify_eq. unfold closing_banner.
  by rewrite <- !List.app_assoc.
Qed.

Lemma run_enumeration_real :
  mode self = "real" ->
  run_enumeration self env w
  = (Ret tt,
     set_stdout (fun o => o ++ closing_banner self)
       (run_command self (real_cmd (target self)) "nmap_full.txt" env w0).2).
Proof.
  intros Hmode. unfold run_enumeration, nmap_realworld. rewrite Hmode.
  rewrite decide_False, decide_True by done. unfold_effects.
  pose proof (run_enumeration_with (real_cmd (target self)) "nmap_full.txt") as H.
  cbv zeta in H. unfold w0, opening_banner, real_cmd, set_stdout in *.
  rewrite Hmode in *. rewrite <- !List.app_assoc. cbn [app].
  destruct (run_command _ _ _ _ _) as [o w1]. cbn [fst snd] in *.
  destruct o; simplify_eq. unfold closing_banner.
  by rewrite <- !List.app_assoc.
Qed.

End RunEnumeration.

(** ** [main] *)

Lemma for_each_skip {A} (l : list A) (env : Env) (w : World) :
  for_each l (fun _ => ret tt) env w = (Ret tt, w).
Proof.
  induction l as [|x l IH]; [done|].
  cbn [for_each]. unfold bind at 1. unfold ret at 1. apply IH.
Qed.

(** The preflight query starts one command and changes nothing else. *)
Lemma preflight_run (env : Env) (w : World) :
  subprocess_run_check version_cmd env w
  = (checked (child env version_cmd),
     set_spawned (fun l => l ++ [version_cmd]) w).
Proof.
  unfold subprocess_run_check, for_stdout, Popen.
  unfold bind at 1. unfold bind at 1. unfold modify at 1.
  unfold bind at 1. unfold ask at 1.
  destruct (child env version_cmd) as [e|out [rc|e]]; cbn [checked].
  - by unfold_effects.
  - unfold ret at 1. unfold bind at 1. unfold bind at 1.
    cbn [proc_stdout proc_end]. rewrite for_each_skip.
    unfold_effects. by destruct (rc =? 0).
  - unfold ret at 1. unfold bind at 1. unfold bind at 1.
    cbn [proc_stdout proc_end]. rewrite for_each_skip.
    by unfold_effects.
Qed.

Section Main.

Variables (argv : list CliOpt) (env : Env) (w : World) (args : Args).
Hypothesis Hparse : parse_args argv env w = (Ret args, w).

(** [main] after a preflight that raised: the two classes of its
    [except] clause end in the diagnostic and [sys.exit(1)]; an
    exception of another class leaves [main] as it is. *)
Lemma main_preflight_raised (e : PyExn) :
  checked (child env version_cmd) = Raise e ->
  main argv env w
  = if preflight_catches (exn_class e)
    then (Exit 1,
          mkWorld (stdout w ++ [preflight_line]) (files w) (dirs w)
                  (spawned w ++ [version_cmd]))
    else (Raise e, set_spawned (fun l => l ++ [version_cmd]) w).
Proof.
  intros Hraised. unfold main. unfold bind at 1. rewrite Hparse.
  unfold bind at 1. unfold try_except. rewrite preflight_run, Hraised.
  destruct (preflight_catches (exn_class e)); by unfold_effects.
Qed.

(** The Enumerator [main] constructs. *)
Let enum :=
  mkEnumerator (args_target args) (args_mode args)
               (home env // args_target args).

(** The world in which [run_enumeration] starts. *)
Let ready :=
  mkWorld
    (stdout w ++ [("[*] Output directory: "
                   +:+ Pathlib.str (output_dir enum)) +:+ nl])
    (files w)
    (dirs w ∪ list_to_set
       (Pathlib.str <$> Pathlib.self_and_parents (output_dir enum)))
    (spawned w ++ [version_cmd]).

Lemma main_runs (out : list string) :
  child env version_cmd = Spawned out (Exited 0) ->
  mkdir_error env (output_dir enum) = None ->
  main argv env w = run_enumeration enum env ready.
Proof.
  intros Hchild Hmkdir. unfold main. unfold bind at 1. rewrite Hparse.
  unfold bind at 1. unfold try_except.
  rewrite preflight_run, Hchild. cbn [checked Z.eqb].
  unfold Enumerator_init, setup_output_dir. unfold_effects.
  fold enum. rewrite Hmkdir. by unfold_effects.
Qed.

End Main.

(** [run_enumeration] runs the command of its mode between its two
    banners and returns. *)
Lemma run_enumeration_scan (self : Enumerator) (env : Env) (w : World)
    (cmd : list string) (output_file : string) :
  scan self = Some (cmd, output_file) ->
  run_enumeration self env w
  = (Ret tt,
     set_stdout (fun o => o ++ closing_banner self)
       (run_command self cmd output_file env
          (set_stdout (fun o => o ++ opening_banner self) w)).2).
Proof.
  unfold scan. intros Hscan. repeat case_decide; simplify_eq.
  - by apply run_enumeration_ctf.
  - by apply run_enumeration_real.
Qed.

(** ** [parse_args] *)

Lemma consume_mode (argv : list CliOpt) :
  forall ns ex ns' ex' m,
    (forall m0, ns_mode ns = Some m0 -> m0 ∈ mode_choices) ->
    consume argv ns ex = Done ns' ex' ->
    ns_mode ns' = Some m -> m ∈ mode_choices.
Proof.
  induction argv as [|[v|v| | |s] rest IH]; intros ns ex ns' ex' m Hns Hc Hm;
    cbn [consume] in Hc; try discriminate.
  - injection Hc as <- <-. by apply Hns.
  - eapply IH; [|done..]. by cbn.
  - case_bool_decide; [|done]. eapply IH; [|done..].
    cbn. by intros ? [= <-].
  - by eapply IH.
Qed.

Lemma consume_no_target (argv : list CliOpt) :
  forall ns ex ns' ex',
    (forall v, OptTarget v ∉ argv) ->
    consume argv ns ex = Done ns' ex' -> ns_target ns' = ns_target ns.
Proof.
  induction argv as [|[v|v| | |s] rest IH]; intros ns ex ns' ex' Hno Hc;
    cbn [consume] in Hc; try discriminate.
  - by injection Hc as <- <-.
  - exfalso. apply (Hno v). by left.
  - case_bool_decide; [|done].
    rewrite (IH _ _ _ _
               (fun v' Hv' => Hno v' (list_elem_of_further _ _ _ Hv')) Hc).
    done.
  - apply (IH _ _ _ _
             (fun v' Hv' => Hno v' (list_elem_of_further _ _ _ Hv')) Hc).
Qed.

Lemma consume_help_met (argv : list CliOpt) :
  forall ns ex, consume argv ns ex = Help -> OptHelp ∈ argv.
Proof.
  induction argv as [|[v|v| | |s] rest IH]; intros ns ex Hc;
    cbn [consume] in Hc; try discriminate.
  - right. by eapply IH.
  - case_bool_decide; [|done]. right. by eapply IH.
  - by left.
  - right. by eapply IH.
Qed.

(** The three ways [parse_args] ends, by the way the pass ends. *)
Lemma parse_args_help (argv : list CliOpt) (env : Env) (w : World) :
  consume argv (mkNamespace None None) [] = Help ->
  parse_args argv env w = (Exit 0, helped env w).
Proof. intros Hc. unfold parse_args. by rewrite Hc. Qed.

Lemma parse_args_failed (argv : list CliOpt) (env : Env) (w : World) :
  consume argv (mkNamespace None None) [] = Failed ->
  parse_args argv env w = (Exit 2, w).
Proof. intros Hc. unfold parse_args. by rewrite Hc. Qed.

Lemma parse_args_done (argv : list CliOpt) (env : Env) (w : World)
    (ns : Namespace) (extras : list string) :
  consume argv (mkNamespace None None) [] = Done ns extras ->
  parse_args argv env w
  = match ns_target ns, ns_mode ns, extras with
    | Some t, Some m, [] => (Ret (mkArgs t m), w)
    | _, _, _ => (Exit 2, w)
    end.
Proof.
  intros Hc. unfold parse_args. rewrite Hc.
  by destruct (ns_target ns), (ns_mode ns), extras.
Qed.

(** [parse_args] touches nothing, and a command line it accepts names
    one of the two modes. *)
Lemma parse_args_accepts (argv : list CliOpt) (env : Env) (w w' : World)
    (args : Args) :
  parse_args argv env w = (Ret args, w') ->
  w' = w /\ args_mode args ∈ mode_choices.
Proof.
  destruct (consume argv (mkNamespace None None) []) as [ns ex| |] eqn:Hc.
  - rewrite (parse_args_done _ _ _ _ _ Hc).
    destruct (ns_target ns) as [t|] eqn:Ht, (ns_mode ns) as [m|] eqn:Hm,
      ex as [|x ex]; try discriminate.
    intros [= <- <-]. split; [done|]. cbn.
    eapply consume_mode; [|done..]. by cbn.
  - by rewrite (parse_args_help _ _ _ Hc).
  - by rewrite (parse_args_failed _ _ _ Hc).
Qed.

(** [main] ends where [parse_args] does. *)
Lemma main_parse_exit (argv : list CliOpt) (env : Env) (w w' : World)
    (code : Z) :
  parse_args argv env w = (Exit code, w') ->
  main argv env w = (Exit code, w').
Proof. intros Hparse. unfold main. unfold bind at 1. by rewrite Hparse. Qed.

Lemma parsed_scan (argv : list CliOpt) (env : Env) (w w' : World)
    (args : Args) :
  parse_args argv env w = (Ret args, w') ->
  exists cmd output_file,
    scan (enumerator_of args env) = Some (cmd, output_file).
Proof.
  intros [_ Hm]%parse_args_accepts. unfold scan, enumerator_of. cbn [mode].
  apply list_elem_of_In in Hm.
  destruct Hm as [<-|[<-|[]]]; repeat case_decide; eauto; done.
Qed.

(** ** Log paths *)

Module PathFacts.

Lemma digit_not_slash (n : nat) : Datetime.digit n <> "/"%char.
Proof.
  unfold Datetime.digit. pose proof (Nat.mod_upper_bound n 10) as Hlt.
  destruct (n mod 10)%nat as [|[|[|[|[|[|[|[|[|[|k]]]]]]]]]];
    try discriminate. lia.
Qed.

Lemma split_slash_nonempty (s : string) : Str.split_slash s <> [].
Proof.
  destruct s as [|c s]; cbn [Str.split_slash]; [done|].
  case_decide; [done|]. by destruct (Str.split_slash s).
Qed.

(** A prefix without a slash stays in front of the first component. *)
Lemma split_slash_prefix (a b h : string) (t : list string) :
  Forall (fun c => c <> "/"%char) (String.list_ascii_of_string a) ->
  Str.split_slash b = h :: t ->
  Str.split_slash (a +:+ b) = (a +:+ h) :: t.
Proof.
  intros Ha Hb. induction a as [|c a IH]; [done|].
  cbn [String.list_ascii_of_string] in Ha. apply Forall_cons in Ha as [Hc Ha].
  change (String c a +:+ b) with (String c (a +:+ b)).
  cbn [Str.split_slash]. rewrite decide_False by done. by rewrite IH.
Qed.

Lemma splitroot_relative (c : ascii) (s : string) :
  c <> "/"%char -> Pathlib.splitroot (String c s) = ("", String c s).
Proof.
  intros Hc. destruct c as [[] [] [] [] [] [] [] []]; try done.
Qed.

Lemma str_of_parts (r : string) (ps : list string) :
  ps <> [] -> Pathlib.str (mkPath r ps) = r +:+ Str.join "/" ps.
Proof. intros Hps. unfold Pathlib.str. cbn. by destruct r, ps. Qed.

(** [sep.join] around one element: what comes before it depends on the
    elements before it only. *)
Lemma join_cons (sep x : string) (l : list string) :
  Str.join sep (x :: l)
  = x +:+ Str.concat ((fun y => sep +:+ y) <$> l).
Proof.
  revert x. induction l as [|y l IH]; intros x.
  - by rewrite StrFacts.app_nil_r.
  - change (Str.join sep (x :: y :: l))
      with (x +:+ sep +:+ Str.join sep (y :: l)).
    rewrite IH. cbn [fmap list_fmap Str.concat].
    by rewrite !StrFacts.app_assoc.
Qed.

Lemma join_app_cons (sep x : string) (l l' : list string) :
  Str.join sep (l ++ x :: l')
  = Str.concat ((fun y => y +:+ sep) <$> l)
    +:+ x +:+ Str.concat ((fun y => sep +:+ y) <$> l').
Proof.
  induction l as [|y l IH]; [apply join_cons|].
  cbn [app fmap list_fmap Str.concat]. rewrite StrFacts.app_assoc, <- IH.
  destruct l; by rewrite ?StrFacts.app_assoc.
Qed.

Lemma timestamp_no_slash (d : DateTime) :
  Forall (fun c => c <> "/"%char)
    (String.list_ascii_of_string (Datetime.strftime d +:+ "_")).
Proof.
  repeat (apply Forall_cons; split;
          [first [apply digit_not_slash | discriminate]|]).
  apply Forall_nil_2.
Qed.

(** The path of a log: the output directory, then a component that
    starts with the timestamp. *)
Lemma log_path_str (self : Enumerator) (output_file : string) (env : Env) :
  exists rest,
    Pathlib.str (log_path self output_file env)
    = (root (output_dir self)
       +:+ Str.concat ((fun y => y +:+ "/") <$> parts (output_dir self)))
      +:+ Datetime.strftime (now env) +:+ rest.
Proof.
  unfold log_path, output_path, Pathlib.joinpath, Pathlib.parse.
  set (ts := Datetime.strftime (now env)).
  destruct (Str.split_slash output_file) as [|h t] eqn:Hsplit.
  { by apply split_slash_nonempty in Hsplit. }
  assert (ts +:+ "_" +:+ output_file = (ts +:+ "_") +:+ output_file) as ->
    by by rewrite StrFacts.app_assoc.
  assert (Pathlib.splitroot ((ts +:+ "_") +:+ output_file)
          = ("", (ts +:+ "_") +:+ output_file)) as ->.
  { apply (splitroot_relative (Datetime.digit (year (now env) / 1000))).
    apply digit_not_slash. }
  rewrite (split_slash_prefix _ _ h t) by (apply timestamp_no_slash || done).
  cbn [List.filter]. assert (Pathlib.keep_part ((ts +:+ "_") +:+ h) = true) as ->.
  { unfold Pathlib.keep_part.
    rewrite !bool_decide_eq_false_2; [done|..]; intros Heq;
      apply (f_equal String.length) in Heq;
      rewrite !StrFacts.length_app in Heq; unfold ts in Heq;
      rewrite StrFacts.strftime_length in Heq; cbn in Heq; lia. }
  cbn [root parts]. rewrite decide_True by done.
  rewrite str_of_parts by (by destruct (parts (output_dir self))).
  rewrite join_app_cons. eexists.
  by rewrite !StrFacts.app_assoc.
Qed.

(** Logs of one directory with the same path have the same timestamp. *)
Lemma log_path_timestamp (self1 self2 : Enumerator) (f1 f2 : string)
    (env1 env2 : Env) :
  output_dir self1 = output_dir self2 ->
  Pathlib.str (log_path self1 f1 env1) = Pathlib.str (log_path self2 f2 env2) ->
  Datetime.strftime (now env1) = Datetime.strftime (now env2).
Proof.
  intros Hdir Hstr.
  destruct (log_path_str self1 f1 env1) as [r1 H1].
  destruct (log_path_str self2 f2 env2) as [r2 H2].
  rewrite H1, H2, Hdir in Hstr. apply (inj _) in Hstr.
  by apply StrFacts.app_inj_length in Hstr as [? _].
Qed.

End PathFacts.

(** * The claims *)

(** C1, as stated, fails: a scan that exits with code 137 makes
    [run_command] return [True], which is not [137 == 0]. *)
Lemma C1_exit_137_returns_true :
  let env := Sample.machine Sample.noon (Sample.nmap_exits 137) in
  let cmd := ctf_cmd "10.10.10.1" in
  child env cmd = Spawned ["Starting Nmap 7.94" +:+ nl] (Exited 137)
  /\ (run_command Sample.box cmd "nmap_ctf.txt" env empty_world).1 = Ret true
  /\ (run_command Sample.box cmd "nmap_ctf.txt" env empty_world).1
     <> Ret (137 =? 0).
Proof. by vm_compute. Qed.

(** C1, amended: once the child has terminated, [run_command] returns
    [True] whatever the exit code; the exit code decides only the line
    printed last, the success line for zero and the warning carrying the
    code otherwise. *)
Theorem C1_run_command_returns_true_for_any_exit_code
    (self : Enumerator) (cmd : list string) (output_file : string)
    (env : Env) (w : World) (out : list string) (returncode : Z) :
  open_error env (log_path self output_file env) = None ->
  child env cmd = Spawned out (Exited returncode) ->
  (run_command self cmd output_file env w).1 = Ret true
  /\ last (stdout (run_command self cmd output_file env w).2)
     = Some (if returncode =? 0 then success_line
             else warning_line returncode).
Proof.
  intros Hopen Hchild. rewrite (run_command_exited _ _ _ _ _ out returncode)
    by done.
  split; [done|]. unfold after_child. cbn [snd stdout].
  by rewrite !List.app_assoc, last_snoc.
Qed.

Lemma C1_run_command_returns_true_for_any_exit_code_witness :
  let env := Sample.machine Sample.noon (Sample.nmap_exits 137) in
  let cmd := ctf_cmd "10.10.10.1" in
  open_error env (log_path Sample.box "nmap_ctf.txt" env) = None
  /\ child env cmd = Spawned ["Starting Nmap 7.94" +:+ nl] (Exited 137)
  /\ (run_command Sample.box cmd "nmap_ctf.txt" env empty_world).1 = Ret true
  /\ last (stdout (run_command Sample.box cmd "nmap_ctf.txt" env empty_world).2)
     = Some (warning_line 137).
Proof.
  split; [reflexivity|]. split; [reflexivity|].
  apply (C1_run_command_returns_true_for_any_exit_code
           Sample.box (ctf_cmd "10.10.10.1") "nmap_ctf.txt"
           (Sample.machine Sample.noon (Sample.nmap_exits 137)) empty_world
           ["Starting Nmap 7.94" +:+ nl] 137); reflexivity.
Defined.

(** What [run_command] adds to the log of started commands. *)
Lemma run_command_spawned (self : Enumerator) (cmd : list string)
    (output_file : string) (env : Env) (w : World) :
  spawned (run_command self cmd output_file env w).2
  = spawned w ++ match open_error env (log_path self output_file env) with
                 | Some _ => []
                 | None => [cmd]
                 end.
Proof.
  destruct (open_error _ _) as [e|] eqn:Hopen.
  - rewrite (run_command_open_error _ _ _ _ _ e) by done.
    cbn [snd spawned]. by rewrite List.app_nil_r.
  - by rewrite run_command_opened.
Qed.

(** C2: in CTF mode the command announced and given to [Popen] is
    [nmap -sC -sV -Pn -T4 <target>], the target last, for every target;
    it is started whenever the log file could be opened. *)
Theorem C2_ctf_command_is_fixed (self : Enumerator) (env : Env) (w : World) :
  mode self = "ctf" ->
  let cmd := ["nmap"; "-sC"; "-sV"; "-Pn"; "-T4"; target self] in
  let w' := (run_enumeration self env w).2 in
  last cmd = Some (target self)
  /\ (nl +:+ "[+] Running: " +:+ Str.join " " cmd) +:+ nl ∈ stdout w'
  /\ spawned w'
     = spawned w ++ match open_error env (log_path self "nmap_ctf.txt" env) with
                    | Some _ => []
                    | None => [cmd]
                    end.
Proof.
  intros Hmode cmd w'. subst w'. rewrite run_enumeration_ctf by done.
  cbn [snd]. split; [done|]. split.
  - unfold set_stdout at 1. cbn [stdout].
    pose proof (run_command_frame self (ctf_cmd (target self)) "nmap_ctf.txt" env
                  (set_stdout (fun o => o ++ opening_banner self) w))
      as (_ & _ & printed & Hprinted).
    rewrite Hprinted. unfold announce, ctf_cmd. fold cmd.
    rewrite !elem_of_app. left. right. left. by left.
  - unfold set_stdout at 1. cbn [spawned]. by rewrite run_command_spawned.
Qed.

Lemma C2_ctf_command_is_fixed_witness :
  let env := Sample.machine Sample.noon (Sample.nmap_exits 0) in
  let cmd := ["nmap"; "-sC"; "-sV"; "-Pn"; "-T4"; "10.10.10.1"] in
  mode Sample.box = "ctf"
  /\ last cmd = Some "10.10.10.1"
  /\ (nl +:+ "[+] Running: " +:+ Str.join " " cmd) +:+ nl
     ∈ stdout (run_enumeration Sample.box env empty_world).2
  /\ spawned (run_enumeration Sample.box env empty_world).2 = [] ++ [cmd].
Proof.
  split; [reflexivity|].
  apply (C2_ctf_command_is_fixed Sample.box
           (Sample.machine Sample.noon (Sample.nmap_exits 0)) empty_world).
  reflexivity.
Defined.

(** C3: in REAL mode the command announced and given to [Popen] is
    [nmap -sV -Pn --open -p- <target>], the target last, for every
    target; it is started whenever the log file could be opened. *)
Theorem C3_real_command_is_fixed (self : Enumerator) (env : Env) (w : World) :
  mode self = "real" ->
  let cmd := ["nmap"; "-sV"; "-Pn"; "--open"; "-p-"; target self] in
  let w' := (run_enumeration self env w).2 in
  last cmd = Some (target self)
  /\ (nl +:+ "[+] Running: " +:+ Str.join " " cmd) +:+ nl ∈ stdout w'
  /\ spawned w'
     = spawned w ++ match open_error env (log_path self "nmap_full.txt" env) with
                    | Some _ => []
                    | None => [cmd]
                    end.
Proof.
  intros Hmode cmd w'. subst w'. rewrite run_enumeration_real by done.
  cbn [snd]. split; [done|]. split.
  - unfold set_stdout at 1. cbn [stdout].
    pose proof (run_command_frame self (real_cmd (target self)) "nmap_full.txt" env
                  (set_stdout (fun o => o ++ opening_banner self) w))
      as (_ & _ & printed & Hprinted).
    rewrite Hprinted. unfold announce, real_cmd. fold cmd.
    rewrite !elem_of_app. left. right. left. by left.
  - unfold set_stdout at 1. cbn [spawned]. by rewrite run_command_spawned.
Qed.

Lemma C3_real_command_is_fixed_witness :
  let env := Sample.machine Sample.noon (Sample.nmap_exits 0) in
  let cmd := ["nmap"; "-sV"; "-Pn"; "--open"; "-p-"; "example.com"] in
  mode Sample.site = "real"
  /\ last cmd = Some "example.com"
  /\ (nl +:+ "[+] Running: " +:+ Str.join " " cmd) +:+ nl
     ∈ stdout (run_enumeration Sample.site env empty_world).2
  /\ spawned (run_enumeration Sample.site env empty_world).2 = [] ++ [cmd].
Proof.
  split; [reflexivity|].
  apply (C3_real_command_is_fixed Sample.site
           (Sample.machine Sample.noon (Sample.nmap_exits 0)) empty_world).
  reflexivity.
Defined.

(** C4: when the scan ends with an exit code other than zero, the
    program prints the warning line carrying that code, returns normally
    (exit status 0), and the last thing it prints is the completion
    banner, which names the output directory. *)
Theorem C4_nonzero_exit_is_warned_and_completed
    (argv : list CliOpt) (env : Env) (w : World) (args : Args)
    (cmd : list string) (output_file : string)
    (version out : list string) (returncode : Z) :
  let self := enumerator_of args env in
  parse_args argv env w = (Ret args, w) ->
  child env version_cmd = Spawned version (Exited 0) ->
  mkdir_error env (output_dir self) = None ->
  scan self = Some (cmd, output_file) ->
  open_error env (log_path self output_file env) = None ->
  child env cmd = Spawned out (Exited returncode) ->
  returncode <> 0 ->
  (main argv env w).1 = Ret tt
  /\ exit_status (main argv env w).1 = 0
  /\ ("[!] Command exited with code " +:+ Str.of_Z returncode) +:+ nl
     ∈ stdout (main argv env w).2
  /\ exists before,
       stdout (main argv env w).2
       = before
         ++ [ (nl +:+ Str.repeat "=" 70) +:+ nl;
              "[✓] Enumeration complete!" +:+ nl;
              ("[*] Results saved in: "
               +:+ Pathlib.str (output_dir self)) +:+ nl;
              (Str.repeat "=" 70 +:+ nl) +:+ nl ].
Proof.
  intros self Hparse Hversion Hmkdir Hscan Hopen Hchild Hrc.
  rewrite (main_runs argv env w args Hparse version) by done.
  fold (enumerator_of args env). fold self.
  rewrite (run_enumeration_scan self _ _ cmd output_file) by done.
  rewrite (run_command_exited _ _ _ _ _ out returncode) by done.
  apply Z.eqb_neq in Hrc. rewrite Hrc.
  unfold after_child, set_stdout. cbn [fst snd stdout exit_status].
  split; [done|]. split; [done|]. split.
  - rewrite !elem_of_app. left. right. right. right. by left.
  - by eexists.
Qed.

Lemma C4_nonzero_exit_is_warned_and_completed_witness :
  let env := Sample.machine Sample.noon (Sample.nmap_exits 137) in
  let argv := [OptTarget "10.10.10.1"; OptMode "ctf"] in
  let args := mkArgs "10.10.10.1" "ctf" in
  let self := enumerator_of args env in
  (parse_args argv env empty_world = (Ret args, empty_world)
   /\ child env version_cmd = Spawned ["Nmap version 7.94" +:+ nl] (Exited 0)
   /\ mkdir_error env (output_dir self) = None
   /\ scan self = Some (ctf_cmd "10.10.10.1", "nmap_ctf.txt")
   /\ open_error env (log_path self "nmap_ctf.txt" env) = None
   /\ child env (ctf_cmd "10.10.10.1")
      = Spawned ["Starting Nmap 7.94" +:+ nl] (Exited 137)
   /\ 137 <> 0)
  /\ (main argv env empty_world).1 = Ret tt
  /\ exit_status (main argv env empty_world).1 = 0
  /\ ("[!] Command exited with code " +:+ Str.of_Z 137) +:+ nl
     ∈ stdout (main argv env empty_world).2
  /\ exists before,
       stdout (main argv env empty_world).2
       = before
         ++ [ (nl +:+ Str.repeat "=" 70) +:+ nl;
              "[✓] Enumeration complete!" +:+ nl;
              ("[*] Results saved in: "
               +:+ Pathlib.str (output_dir self)) +:+ nl;
              (Str.repeat "=" 70 +:+ nl) +:+ nl ].
Proof.
  split; [repeat split; (reflexivity || lia)|].
  apply (C4_nonzero_exit_is_warned_and_completed
           [OptTarget "10.10.10.1"; OptMode "ctf"]
           (Sample.machine Sample.noon (Sample.nmap_exits 137)) empty_world
           (mkArgs "10.10.10.1" "ctf")
           (ctf_cmd "10.10.10.1") "nmap_ctf.txt"
           ["Nmap version 7.94" +:+ nl] ["Starting Nmap 7.94" +:+ nl] 137);
    (reflexivity || lia).
Defined.

(** C5: when the command cannot be started, [run_command] returns
    [False] to its caller, no exception leaves it, and the last line it
    prints is the diagnostic carrying the text of the failure (that of
    [open], should the log file have failed first). *)
Theorem C5_spawn_failure_is_caught_and_reported
    (self : Enumerator) (cmd : list string) (output_file : string)
    (env : Env) (w : World) (e : PyExn) :
  child env cmd = SpawnError e ->
  (run_command self cmd output_file env w).1 = Ret false
  /\ last (stdout (run_command self cmd output_file env w).2)
     = Some (("[✗] Error running command: "
              +:+ exn_str (default e (open_error env
                                        (log_path self output_file env))))
             +:+ nl).
Proof.
  intros Hchild.
  destruct (open_error env (log_path self output_file env)) as [e'|] eqn:Hopen.
  - rewrite (run_command_open_error _ _ _ _ _ e') by done.
    cbn [fst snd stdout default from_option].
    by rewrite !List.app_assoc, last_snoc.
  - rewrite (run_command_spawn_error _ _ _ _ _ e) by done.
    cbn [fst snd stdout default from_option].
    by rewrite !List.app_assoc, last_snoc.
Qed.

Lemma C5_spawn_failure_is_caught_and_reported_witness :
  let env := Sample.machine Sample.noon Sample.nmap_vanishes in
  let cmd := ctf_cmd "10.10.10.1" in
  child env cmd = SpawnError Sample.no_such_file
  /\ (run_command Sample.box cmd "nmap_ctf.txt" env empty_world).1 = Ret false
  /\ last (stdout (run_command Sample.box cmd "nmap_ctf.txt" env empty_world).2)
     = Some (("[✗] Error running command: "
              +:+ "[Errno 2] No such file or directory: 'nmap'") +:+ nl).
Proof.
  split; [reflexivity|].
  apply (C5_spawn_failure_is_caught_and_reported
           Sample.box (ctf_cmd "10.10.10.1") "nmap_ctf.txt"
           (Sample.machine Sample.noon Sample.nmap_vanishes) empty_world
           Sample.no_such_file).
  reflexivity.
Defined.

(** C6, as stated, fails: when [nmap] is there and may not be executed,
    the version query fails with a [PermissionError], which the
    [except] clause of [main] does not name. [main] ends with that
    exception and has printed nothing. *)
Lemma C6_permission_error_gets_no_diagnostic :
  let env := Sample.machine Sample.noon
               (fun _ => SpawnError Scenario.denied) in
  let argv := [OptTarget "10.10.10.1"; OptMode "ctf"] in
  child env ["nmap"; "--version"] = SpawnError Scenario.denied
  /\ preflight_fails env
  /\ (main argv env empty_world).1 = Raise Scenario.denied
  /\ stdout (main argv env empty_world).2 = [].
Proof.
  split; [reflexivity|]. split; [intros out; discriminate|].
  split; reflexivity.
Qed.

(** C6, amended: when the version query fails, [main] ends with a status
    other than zero, having created no directory and no file and
    started no other command. When [nmap] is not found, or answers the
    query with a code other than zero, it ends through its own
    diagnostic and [sys.exit(1)]. A failure of any other kind leaves
    [main] as an uncaught exception, and the program prints nothing. *)
Theorem C6_failed_preflight_exits_before_any_work
    (argv : list CliOpt) (env : Env) (w : World) (args : Args) :
  parse_args argv env w = (Ret args, w) ->
  preflight_fails env ->
  exit_status (main argv env w).1 <> 0
  /\ dirs (main argv env w).2 = dirs w
  /\ files (main argv env w).2 = files w
  /\ spawned (main argv env w).2 = spawned w ++ [["nmap"; "--version"]]
  /\ (tool_absent env \/ invocation_error env ->
      (main argv env w).1 = Exit 1
      /\ stdout (main argv env w).2
         = stdout w
           ++ ["[✗] Error: nmap is not installed or not in PATH" +:+ nl])
  /\ (forall e, unhandled_failure env e ->
        (main argv env w).1 = Raise e
        /\ stdout (main argv env w).2 = stdout w).
Proof.
  intros Hparse Hfails.
  assert (exists e, checked (child env version_cmd) = Raise e) as [e He].
  { destruct (child env version_cmd) as [e|out [rc|e]] eqn:Hchild;
      cbn [checked]; eauto.
    destruct (rc =? 0) eqn:Hrc; [|by eauto].
    apply Z.eqb_eq in Hrc as ->. by destruct (Hfails out). }
  rewrite (main_preflight_raised argv env w args Hparse e He).
  split_and!.
  - by destruct (preflight_catches _).
  - by destruct (preflight_catches _).
  - by destruct (preflight_catches _).
  - by destruct (preflight_catches _).
  - intros Hhandled.
    assert (preflight_catches (exn_class e) = true) as ->; [|done].
    destruct Hhandled as [(e' & Hchild & Hclass)|(out & rc & Hchild & Hrc)];
      rewrite Hchild in He; cbn [checked] in He.
    + simplify_eq. by rewrite Hclass.
    + apply Z.eqb_neq in Hrc. rewrite Hrc in He. by simplify_eq.
  - intros e' (Hchild & Hcp & Hnf).
    assert (e = e') as <-.
    { destruct Hchild as [Hchild|[out Hchild]];
        rewrite Hchild in He; cbn [checked] in He; congruence. }
    unfold preflight_catches. by rewrite !bool_decide_eq_false_2.
Qed.

Lemma C6_failed_preflight_exits_before_any_work_witness :
  let env := Sample.machine Sample.noon Sample.nmap_missing in
  let argv := [OptTarget "10.10.10.1"; OptMode "ctf"] in
  (parse_args argv env empty_world
   = (Ret (mkArgs "10.10.10.1" "ctf"), empty_world)
   /\ preflight_fails env
   /\ tool_absent env)
  /\ exit_status (main argv env empty_world).1 <> 0
  /\ dirs (main argv env empty_world).2 = ∅
  /\ files (main argv env empty_world).2 = ∅
  /\ spawned (main argv env empty_world).2 = [] ++ [["nmap"; "--version"]]
  /\ (main argv env empty_world).1 = Exit 1
  /\ stdout (main argv env empty_world).2
     = [] ++ ["[✗] Error: nmap is not installed or not in PATH" +:+ nl].
Proof.
  assert (preflight_fails (Sample.machine Sample.noon Sample.nmap_missing))
    as Hfails.
  { intros out. discriminate. }
  assert (tool_absent (Sample.machine Sample.noon Sample.nmap_missing))
    as Habsent.
  { exists Sample.no_such_file. split; reflexivity. }
  split; [split; [reflexivity | split; [exact Hfails | exact Habsent]]|].
  destruct (C6_failed_preflight_exits_before_any_work
              [OptTarget "10.10.10.1"; OptMode "ctf"]
              (Sample.machine Sample.noon Sample.nmap_missing) empty_world
              (mkArgs "10.10.10.1" "ctf") eq_refl Hfails)
    as (Hstatus & Hdirs & Hfiles & Hspawned & Hhandled & _).
  destruct (Hhandled (or_introl Habsent)) as [Hexit Hout].
  repeat split; assumption.
Defined.

(** C7: two runs into the same output directory whose timestamps
    differ write to different paths, whatever the target, the mode and
    the log name, and neither run changes what is stored at the path of
    the other: the log the first run wrote is still there, as it was
    written, after the second run has written its own. *)
Theorem C7_distinct_timestamps_never_collide
    (self1 self2 : Enumerator) (cmd1 cmd2 : list string)
    (file1 file2 : string) (env1 env2 : Env) (w : World) :
  output_dir self1 = output_dir self2 ->
  Datetime.strftime (now env1) <> Datetime.strftime (now env2) ->
  let path1 := Pathlib.str (log_path self1 file1 env1) in
  let path2 := Pathlib.str (log_path self2 file2 env2) in
  let w1 := (run_command self1 cmd1 file1 env1 w).2 in
  let w2 := (run_command self2 cmd2 file2 env2 w1).2 in
  path1 <> path2
  /\ files w1 !! path2 = files w !! path2
  /\ files w2 !! path1 = files w1 !! path1
  /\ (open_error env1 (log_path self1 file1 env1) = None ->
      files w1 !! path1 = Some (log_text self1 cmd1 env1)
      /\ files w2 !! path1 = Some (log_text self1 cmd1 env1))
  /\ (open_error env2 (log_path self2 file2 env2) = None ->
      files w2 !! path2 = Some (log_text self2 cmd2 env2)).
Proof.
  intros Hdir Hts path1 path2 w1 w2.
  assert (path1 <> path2) as Hne.
  { intros Heq. apply Hts.
    by apply (PathFacts.log_path_timestamp self1 self2 file1 file2). }
  assert (files w2 !! path1 = files w1 !! path1) as Hkept
    by by apply (run_command_frame self2 cmd2 file2 env2 w1).
  split; [done|]. split; [|split; [done|split]].
  - by apply (run_command_frame self1 cmd1 file1 env1 w).
  - intros Hopen. rewrite Hkept. subst w1 path1.
    rewrite run_command_opened by done.
    unfold after_child, log_text. cbn [snd files].
    by rewrite lookup_insert_eq.
  - intros Hopen. subst w2 path2.
    rewrite run_command_opened by done.
    unfold after_child, log_text. cbn [snd files].
    by rewrite lookup_insert_eq.
Qed.

Lemma C7_distinct_timestamps_never_collide_witness :
  let env1 := Sample.machine Sample.noon (Sample.nmap_exits 0) in
  let env2 := Sample.machine Sample.midnight (Sample.nmap_exits 0) in
  let cmd := ctf_cmd "10.10.10.1" in
  let path1 := "/home/kali/10.10.10.1/20240309_120000_nmap_ctf.txt" in
  let path2 := "/home/kali/10.10.10.1/20240310_000000_nmap_ctf.txt" in
  let w1 := (run_command Sample.box cmd "nmap_ctf.txt" env1 empty_world).2 in
  let w2 := (run_command Sample.box cmd "nmap_ctf.txt" env2 w1).2 in
  (Datetime.strftime (now env1) <> Datetime.strftime (now env2)
   /\ open_error env1 (log_path Sample.box "nmap_ctf.txt" env1) = None
   /\ open_error env2 (log_path Sample.box "nmap_ctf.txt" env2) = None)
  /\ path1 <> path2
  /\ files w1 !! path2 = (∅ : gmap string string) !! path2
  /\ files w2 !! path1 = files w1 !! path1
  /\ files w1 !! path1 = Some (log_text Sample.box cmd env1)
  /\ files w2 !! path1 = Some (log_text Sample.box cmd env1)
  /\ files w2 !! path2 = Some (log_text Sample.box cmd env2).
Proof.
  split; [split; [discriminate | split; reflexivity]|].
  destruct (C7_distinct_timestamps_never_collide
              Sample.box Sample.box
              (ctf_cmd "10.10.10.1") (ctf_cmd "10.10.10.1")
              "nmap_ctf.txt" "nmap_ctf.txt"
              (Sample.machine Sample.noon (Sample.nmap_exits 0))
              (Sample.machine Sample.midnight (Sample.nmap_exits 0))
              empty_world eq_refl ltac:(discriminate))
    as (Hne & Hother & Hkept & Hfirst & Hsecond).
  destruct (Hfirst eq_refl) as [Hwritten Hstill].
  pose proof (Hsecond eq_refl) as Hown.
  repeat split; assumption.
Defined.

(** C8: a log file that could be opened holds the header, four lines
    (the command line, the timestamp, the target, a separator) and an
    empty line, and after it the lines read from the child, as they
    were read. *)
Theorem C8_log_file_is_header_then_raw_output
    (self : Enumerator) (cmd : list string) (output_file : string)
    (env : Env) (w : World) :
  open_error env (log_path self output_file env) = None ->
  files (run_command self cmd output_file env w).2
    !! Pathlib.str (log_path self output_file env)
  = Some (("# Command: " +:+ Str.join " " cmd +:+ nl
           +:+ "# Timestamp: " +:+ Datetime.strftime (now env) +:+ nl
           +:+ "# Target: " +:+ target self +:+ nl
           +:+ "#" +:+ Str.repeat "=" 70 +:+ nl
           +:+ nl)
          +:+ Str.concat (child_lines (child env cmd))).
Proof.
  intros Hopen. rewrite run_command_opened by done.
  unfold after_child, header_text. cbn [snd files].
  rewrite lookup_insert_eq. by rewrite !StrFacts.app_assoc.
Qed.

Lemma C8_log_file_is_header_then_raw_output_witness :
  let env := Sample.machine Sample.noon (Sample.nmap_exits 0) in
  let cmd := ctf_cmd "10.10.10.1" in
  open_error env (log_path Sample.box "nmap_ctf.txt" env) = None
  /\ files (run_command Sample.box cmd "nmap_ctf.txt" env empty_world).2
       !! "/home/kali/10.10.10.1/20240309_120000_nmap_ctf.txt"
     = Some (("# Command: nmap -sC -sV -Pn -T4 10.10.10.1" +:+ nl
              +:+ "# Timestamp: 20240309_120000" +:+ nl
              +:+ "# Target: 10.10.10.1" +:+ nl
              +:+ "#" +:+ Str.repeat "=" 70 +:+ nl
              +:+ nl)
             +:+ "Starting Nmap 7.94" +:+ nl).
Proof.
  split; [reflexivity|].
  apply (C8_log_file_is_header_then_raw_output
           Sample.box (ctf_cmd "10.10.10.1") "nmap_ctf.txt"
           (Sample.machine Sample.noon (Sample.nmap_exits 0)) empty_world).
  reflexivity.
Defined.

(** C9, as stated, fails: the empty string is accepted as a target, and
    the program goes on to scan it. *)
Lemma C9_empty_target_is_accepted :
  let env := Sample.machine Sample.noon (Sample.nmap_exits 0) in
  let argv := [OptTarget ""; OptMode "ctf"] in
  parse_args argv env empty_world = (Ret (mkArgs "" "ctf"), empty_world)
  /\ (main argv env empty_world).1 = Ret tt
  /\ spawned (main argv env empty_world).2
     = [["nmap"; "--version"]; ["nmap"; "-sC"; "-sV"; "-Pn"; "-T4"; ""]].
Proof. by vm_compute. Qed.

(** C9, amended: the target is required, and a command line without it
    ends in argument parsing, in a usage error or in the help, before
    anything else happens; its value is not validated: any string, the
    empty one included, is accepted and kept as it is. *)
Theorem C9_target_is_required_and_not_validated
    (argv : list CliOpt) (env : Env) (w : World) :
  ((forall v, OptTarget v ∉ argv) ->
   main argv env w = (Exit 2, w)
   \/ (OptHelp ∈ argv /\ main argv env w = (Exit 0, helped env w)))
  /\ (forall t m,
        m ∈ mode_choices ->
        parse_args [OptTarget t; OptMode m] env w = (Ret (mkArgs t m), w)).
Proof.
  split.
  - intros Hno.
    destruct (consume argv (mkNamespace None None) []) as [ns ex| |] eqn:Hc.
    + left. apply main_parse_exit. rewrite (parse_args_done _ _ _ _ _ Hc).
      rewrite (consume_no_target argv _ _ ns ex Hno Hc). reflexivity.
    + right. split; [by apply (consume_help_met argv _ _ Hc)|].
      apply main_parse_exit. by apply parse_args_help.
    + left. apply main_parse_exit. by apply parse_args_failed.
  - intros t m Hm. unfold parse_args. cbn [consume].
    by rewrite bool_decide_eq_true_2.
Qed.

Lemma C9_target_is_required_and_not_validated_witness :
  let env := Sample.machine Sample.noon (Sample.nmap_exits 0) in
  (forall v, OptTarget v ∉ [OptMode "ctf"])
  /\ "real" ∈ mode_choices
  /\ main [OptMode "ctf"] env empty_world = (Exit 2, empty_world)
  /\ parse_args [OptTarget ""; OptMode "real"] env empty_world
     = (Ret (mkArgs "" "real"), empty_world).
Proof.
  assert (forall v, OptTarget v ∉ [OptMode "ctf"]) as Hno.
  { intros v Hv. apply list_elem_of_In in Hv. destruct Hv as [Hv|[]].
    discriminate Hv. }
  assert ("real" ∈ mode_choices) as Hreal.
  { apply list_elem_of_In. right. left. reflexivity. }
  split; [exact Hno|]. split; [exact Hreal|].
  pose proof (C9_target_is_required_and_not_validated [OptMode "ctf"]
                (Sample.machine Sample.noon (Sample.nmap_exits 0)) empty_world)
    as [Hrequired Hkept].
  split; [|exact (Hkept "" "real" Hreal)].
  destruct (Hrequired Hno) as [Hexit|[Hhelp _]]; [exact Hexit|].
  apply list_elem_of_In in Hhelp. destruct Hhelp as [Hhelp|[]].
  discriminate Hhelp.
Defined.

(** C10: when the command cannot be started, the log file opened just
    before is left on disk holding the header and nothing else, while
    [run_command] reports the failure. *)
Theorem C10_spawn_failure_leaves_header_only_log
    (self : Enumerator) (cmd : list string) (output_file : string)
    (env : Env) (w : World) (e : PyExn) :
  open_error env (log_path self output_file env) = None ->
  child env cmd = SpawnError e ->
  (run_command self cmd output_file env w).1 = Ret false
  /\ files (run_command self cmd output_file env w).2
       !! Pathlib.str (log_path self output_file env)
     = Some ("# Command: " +:+ Str.join " " cmd +:+ nl
             +:+ "# Timestamp: " +:+ Datetime.strftime (now env) +:+ nl
             +:+ "# Target: " +:+ target self +:+ nl
             +:+ "#" +:+ Str.repeat "=" 70 +:+ nl
             +:+ nl).
Proof.
  intros Hopen Hchild. rewrite (run_command_spawn_error _ _ _ _ _ e) by done.
  split; [done|]. cbn [snd files]. rewrite lookup_insert_eq.
  unfold header_text. by rewrite !StrFacts.app_assoc.
Qed.

Lemma C10_spawn_failure_leaves_header_only_log_witness :
  let env := Sample.machine Sample.noon Sample.nmap_vanishes in
  let cmd := ctf_cmd "10.10.10.1" in
  (open_error env (log_path Sample.box "nmap_ctf.txt" env) = None
   /\ child env cmd = SpawnError Sample.no_such_file)
  /\ (run_command Sample.box cmd "nmap_ctf.txt" env empty_world).1 = Ret false
  /\ files (run_command Sample.box cmd "nmap_ctf.txt" env empty_world).2
       !! "/home/kali/10.10.10.1/20240309_120000_nmap_ctf.txt"
     = Some ("# Command: nmap -sC -sV -Pn -T4 10.10.10.1" +:+ nl
             +:+ "# Timestamp: 20240309_120000" +:+ nl
             +:+ "# Target: 10.10.10.1" +:+ nl
             +:+ "#" +:+ Str.repeat "=" 70 +:+ nl
             +:+ nl).
Proof.
  split; [split; reflexivity|].
  apply (C10_spawn_failure_leaves_header_only_log
           Sample.box (ctf_cmd "10.10.10.1") "nmap_ctf.txt"
           (Sample.machine Sample.noon Sample.nmap_vanishes) empty_world
           Sample.no_such_file); reflexivity.
Defined.

(** * Further properties *)

(** ** [run_command] *)

Lemma success_is_no_warning (returncode : Z) :
  success_line <> warning_line returncode.
Proof. unfold success_line, warning_line. discriminate. Qed.

Lemma warning_line_inj (rc rc' : Z) :
  warning_line rc = warning_line rc' -> rc = rc'.
Proof.
  unfold warning_line, Str.of_Z. intros H.
  apply StrFacts.app_inj_r in H. apply (inj _) in H. by apply (inj pretty).
Qed.

(** X1: when the log file cannot be opened, [run_command] returns
    [False] after its two announcements and the diagnostic; no file is
    created or changed, no directory is created, and the command is
    never started. *)
Theorem X1_open_failure_starts_nothing
    (self : Enumerator) (cmd : list string) (output_file : string)
    (env : Env) (w : World) (e : PyExn) :
  open_error env (log_path self output_file env) = Some e ->
  run_command self cmd output_file env w
  = (Ret false,
     mkWorld
       (stdout w
        ++ [ (nl +:+ "[+] Running: " +:+ Str.join " " cmd) +:+ nl;
             ("[*] Saving to: "
              +:+ Pathlib.str (log_path self output_file env)) +:+ nl;
             ("[✗] Error running command: " +:+ exn_str e) +:+ nl ])
       (files w) (dirs w) (spawned w)).
Proof. intros Hopen. by rewrite (run_command_open_error _ _ _ _ _ e). Qed.

Lemma X1_open_failure_starts_nothing_witness :
  let env := Scenario.read_only Sample.noon (Sample.nmap_exits 0) in
  let cmd := ctf_cmd "10.10.10.1" in
  open_error env (log_path Sample.box "nmap_ctf.txt" env) = Some Scenario.denied
  /\ run_command Sample.box cmd "nmap_ctf.txt" env empty_world
     = (Ret false,
        mkWorld
          ([] ++ [ (nl +:+ "[+] Running: " +:+ Str.join " " cmd) +:+ nl;
                   ("[*] Saving to: "
                    +:+ Pathlib.str (log_path Sample.box "nmap_ctf.txt" env))
                   +:+ nl;
                   ("[✗] Error running command: "
                    +:+ "[Errno 13] Permission denied") +:+ nl ])
          ∅ ∅ []).
Proof.
  split; [reflexivity|].
  apply (X1_open_failure_starts_nothing
           Sample.box (ctf_cmd "10.10.10.1") "nmap_ctf.txt"
           (Scenario.read_only Sample.noon (Sample.nmap_exits 0)) empty_world
           Scenario.denied).
  reflexivity.
Defined.

(** X2: when reading the child's output raises after some lines, those
    lines have reached the terminal and the log, the log holds the
    header and them, the diagnostic is printed last and [run_command]
    returns [False]. *)
Theorem X2_read_failure_keeps_what_was_read
    (self : Enumerator) (cmd : list string) (output_file : string)
    (env : Env) (w : World) (out : list string) (e : PyExn) :
  open_error env (log_path self output_file env) = None ->
  child env cmd = Spawned out (ReadError e) ->
  (run_command self cmd output_file env w).1 = Ret false
  /\ stdout (run_command self cmd output_file env w).2
     = stdout w
       ++ [ (nl +:+ "[+] Running: " +:+ Str.join " " cmd) +:+ nl;
            ("[*] Saving to: "
             +:+ Pathlib.str (log_path self output_file env)) +:+ nl ]
       ++ out
       ++ [("[✗] Error running command: " +:+ exn_str e) +:+ nl]
  /\ files (run_command self cmd output_file env w).2
       !! Pathlib.str (log_path self output_file env)
     = Some (header_text self cmd (Datetime.strftime (now env))
             +:+ Str.concat out).
Proof.
  intros Hopen Hchild.
  rewrite (run_command_read_error _ _ _ _ _ out e) by done.
  unfold after_child. cbn [fst snd stdout files].
  split; [done|]. split; [done|]. apply lookup_insert_eq.
Qed.

Lemma X2_read_failure_keeps_what_was_read_witness :
  let env := Sample.machine Sample.noon Scenario.nmap_garbled in
  let cmd := ctf_cmd "10.10.10.1" in
  let r := run_command Sample.box cmd "nmap_ctf.txt" env empty_world in
  (open_error env (log_path Sample.box "nmap_ctf.txt" env) = None
   /\ child env cmd
      = Spawned ["Starting Nmap 7.94" +:+ nl] (ReadError Scenario.bad_byte))
  /\ r.1 = Ret false
  /\ stdout r.2
     = []
       ++ [ (nl +:+ "[+] Running: " +:+ Str.join " " cmd) +:+ nl;
            ("[*] Saving to: "
             +:+ Pathlib.str (log_path Sample.box "nmap_ctf.txt" env)) +:+ nl ]
       ++ ["Starting Nmap 7.94" +:+ nl]
       ++ [("[✗] Error running command: "
            +:+ exn_str Scenario.bad_byte) +:+ nl]
  /\ files r.2 !! Pathlib.str (log_path Sample.box "nmap_ctf.txt" env)
     = Some (header_text Sample.box cmd (Datetime.strftime (now env))
             +:+ Str.concat ["Starting Nmap 7.94" +:+ nl]).
Proof.
  split; [split; reflexivity|].
  apply (X2_read_failure_keeps_what_was_read
           Sample.box (ctf_cmd "10.10.10.1") "nmap_ctf.txt"
           (Sample.machine Sample.noon Scenario.nmap_garbled) empty_world
           ["Starting Nmap 7.94" +:+ nl] Scenario.bad_byte); reflexivity.
Defined.

(** X3: once the log file is open, what [run_command] shows on the
    terminal between its announcements and its closing line is, line by
    line and in order, what it stores in the log after the header. *)
Theorem X3_terminal_and_log_get_the_same_lines
    (self : Enumerator) (cmd : list string) (output_file : string)
    (env : Env) (w : World) :
  open_error env (log_path self output_file env) = None ->
  exists (lines : list string) (closing : string),
    stdout (run_command self cmd output_file env w).2
    = stdout w
      ++ [ (nl +:+ "[+] Running: " +:+ Str.join " " cmd) +:+ nl;
           ("[*] Saving to: "
            +:+ Pathlib.str (log_path self output_file env)) +:+ nl ]
      ++ lines ++ [closing]
    /\ files (run_command self cmd output_file env w).2
         !! Pathlib.str (log_path self output_file env)
       = Some (header_text self cmd (Datetime.strftime (now env))
               +:+ Str.concat lines)
    /\ lines = child_lines (child env cmd).
Proof.
  intros Hopen. rewrite run_command_opened by done.
  exists (child_lines (child env cmd)), (closing_line (child env cmd)).
  unfold after_child. cbn [snd stdout files].
  split; [done|]. split; [apply lookup_insert_eq | done].
Qed.

Lemma X3_terminal_and_log_get_the_same_lines_witness :
  let env := Sample.machine Sample.noon (Sample.nmap_exits 0) in
  let cmd := ctf_cmd "10.10.10.1" in
  let r := run_command Sample.box cmd "nmap_ctf.txt" env empty_world in
  open_error env (log_path Sample.box "nmap_ctf.txt" env) = None
  /\ exists (lines : list string) (closing : string),
       stdout r.2
       = []
         ++ [ (nl +:+ "[+] Running: " +:+ Str.join " " cmd) +:+ nl;
              ("[*] Saving to: "
               +:+ Pathlib.str (log_path Sample.box "nmap_ctf.txt" env))
              +:+ nl ]
         ++ lines ++ [closing]
       /\ files r.2 !! Pathlib.str (log_path Sample.box "nmap_ctf.txt" env)
          = Some (header_text Sample.box cmd (Datetime.strftime (now env))
                  +:+ Str.concat lines)
       /\ lines = ["Starting Nmap 7.94" +:+ nl].
Proof.
  split; [reflexivity|].
  apply (X3_terminal_and_log_get_the_same_lines
           Sample.box (ctf_cmd "10.10.10.1") "nmap_ctf.txt"
           (Sample.machine Sample.noon (Sample.nmap_exits 0)) empty_world).
  reflexivity.
Defined.

(** X4: whatever happens, [run_command] creates no directory, changes no
    file but its own log, only adds to the terminal, and starts at most
    the one command it was given. *)
Theorem X4_run_command_touches_only_its_log
    (self : Enumerator) (cmd : list string) (output_file : string)
    (env : Env) (w : World) :
  dirs (run_command self cmd output_file env w).2 = dirs w
  /\ (forall p,
        p <> Pathlib.str (log_path self output_file env) ->
        files (run_command self cmd output_file env w).2 !! p = files w !! p)
  /\ stdout w `prefix_of` stdout (run_command self cmd output_file env w).2
  /\ (spawned (run_command self cmd output_file env w).2 = spawned w
      \/ spawned (run_command self cmd output_file env w).2
         = spawned w ++ [cmd]).
Proof.
  destruct (run_command_frame self cmd output_file env w)
    as (Hdirs & Hfiles & printed & Hout).
  split; [done|]. split; [done|]. split.
  - rewrite Hout. by eexists.
  - rewrite run_command_spawned.
    destruct (open_error _ _); [left; apply List.app_nil_r | by right].
Qed.

(** X5: after the child has exited, the line printed last tells the exit
    code: it is the success line exactly when the code is zero, and
    otherwise the warning of that code and of no other. *)
Theorem X5_last_line_tells_the_exit_code
    (self : Enumerator) (cmd : list string) (output_file : string)
    (env : Env) (w : World) (out : list string) (returncode : Z) :
  open_error env (log_path self output_file env) = None ->
  child env cmd = Spawned out (Exited returncode) ->
  (last (stdout (run_command self cmd output_file env w).2)
   = Some ("[✓] Completed successfully" +:+ nl)
   <-> returncode = 0)
  /\ (forall code,
        last (stdout (run_command self cmd output_file env w).2)
        = Some (("[!] Command exited with code " +:+ Str.of_Z code) +:+ nl)
        <-> returncode <> 0 /\ code = returncode).
Proof.
  intros Hopen Hchild.
  rewrite (run_command_exited _ _ _ _ _ out returncode) by done.
  unfold after_child. cbn [snd stdout]. rewrite !List.app_assoc, last_snoc.
  fold success_line. split; [|intros code; fold (warning_line code)].
  - destruct (Z.eqb_spec returncode 0) as [->|Hne]; [done|].
    split; [|done]. intros H. apply (inj Some) in H.
    by destruct (success_is_no_warning returncode).
  - destruct (Z.eqb_spec returncode 0) as [->|Hne].
    + split; [|by intros [? _]].
      intros H. apply (inj Some) in H.
      by destruct (success_is_no_warning code).
    + split.
      * intros H. apply (inj Some) in H. by apply warning_line_inj in H.
      * by intros [_ ->].
Qed.

Lemma X5_last_line_tells_the_exit_code_witness :
  let env := Sample.machine Sample.noon (Sample.nmap_exits 137) in
  let cmd := ctf_cmd "10.10.10.1" in
  let r := run_command Sample.box cmd "nmap_ctf.txt" env empty_world in
  (open_error env (log_path Sample.box "nmap_ctf.txt" env) = None
   /\ child env cmd = Spawned ["Starting Nmap 7.94" +:+ nl] (Exited 137))
  /\ (last (stdout r.2) = Some ("[✓] Completed successfully" +:+ nl)
      <-> 137 = 0)
  /\ (forall code,
        last (stdout r.2)
        = Some (("[!] Command exited with code " +:+ Str.of_Z code) +:+ nl)
        <-> 137 <> 0 /\ code = 137).
Proof.
  split; [split; reflexivity|].
  apply (X5_last_line_tells_the_exit_code
           Sample.box (ctf_cmd "10.10.10.1") "nmap_ctf.txt"
           (Sample.machine Sample.noon (Sample.nmap_exits 137)) empty_world
           ["Starting Nmap 7.94" +:+ nl] 137); reflexivity.
Defined.

(** X6: two runs into the same directory in the same second under the
    same log name share one path, and the log of the first is replaced:
    after the second run the file holds the second header and the second
    output only. *)
Theorem X6_same_second_overwrites
    (self1 self2 : Enumerator) (cmd1 cmd2 : list string)
    (output_file : string) (env1 env2 : Env) (w : World) :
  output_dir self1 = output_dir self2 ->
  Datetime.strftime (now env1) = Datetime.strftime (now env2) ->
  open_error env2 (log_path self2 output_file env2) = None ->
  let w1 := (run_command self1 cmd1 output_file env1 w).2 in
  let w2 := (run_command self2 cmd2 output_file env2 w1).2 in
  Pathlib.str (log_path self1 output_file env1)
  = Pathlib.str (log_path self2 output_file env2)
  /\ files w2 !! Pathlib.str (log_path self1 output_file env1)
     = Some (header_text self2 cmd2 (Datetime.strftime (now env2))
             +:+ Str.concat (child_lines (child env2 cmd2))).
Proof.
  intros Hdir Hts Hopen w1 w2.
  assert (log_path self1 output_file env1 = log_path self2 output_file env2)
    as Hpath by (unfold log_path, output_path; by rewrite Hdir, Hts).
  split; [by rewrite Hpath|]. subst w2. rewrite Hpath.
  rewrite run_command_opened by done. unfold after_child. cbn [snd files].
  apply lookup_insert_eq.
Qed.

Lemma X6_same_second_overwrites_witness :
  let env1 := Sample.machine Sample.noon (Sample.nmap_exits 0) in
  let env2 := Sample.machine Sample.noon Sample.nmap_vanishes in
  let cmd := ctf_cmd "10.10.10.1" in
  let w1 := (run_command Sample.box cmd "nmap_ctf.txt" env1 empty_world).2 in
  let w2 := (run_command Sample.box cmd "nmap_ctf.txt" env2 w1).2 in
  (Datetime.strftime (now env1) = Datetime.strftime (now env2)
   /\ open_error env2 (log_path Sample.box "nmap_ctf.txt" env2) = None)
  /\ Pathlib.str (log_path Sample.box "nmap_ctf.txt" env1)
     = Pathlib.str (log_path Sample.box "nmap_ctf.txt" env2)
  /\ files w2 !! Pathlib.str (log_path Sample.box "nmap_ctf.txt" env1)
     = Some (header_text Sample.box cmd (Datetime.strftime (now env2))
             +:+ Str.concat []).
Proof.
  split; [split; reflexivity|].
  apply (X6_same_second_overwrites
           Sample.box Sample.box (ctf_cmd "10.10.10.1") (ctf_cmd "10.10.10.1")
           "nmap_ctf.txt"
           (Sample.machine Sample.noon (Sample.nmap_exits 0))
           (Sample.machine Sample.noon Sample.nmap_vanishes) empty_world);
    reflexivity.
Defined.

(** ** [run_enumeration] *)

Lemma run_enumeration_idle (self : Enumerator) (env : Env) (w : World) :
  scan self = None ->
  run_enumeration self env w
  = (Ret tt,
     set_stdout (fun o => o ++ closing_banner self)
       (set_stdout (fun o => o ++ opening_banner self) w)).
Proof.
  unfold scan. intros Hscan. repeat case_decide; simplify_eq.
  unfold run_enumeration. rewrite !decide_False by done. unfold_effects.
  unfold closing_banner, opening_banner. by rewrite <- !List.app_assoc.
Qed.

(** [run_enumeration] in every mode: the opening banner, the scan of the
    mode if it has one, the closing banner, and a normal return. *)
Lemma run_enumeration_eq (self : Enumerator) (env : Env) (w : World) :
  run_enumeration self env w
  = (Ret tt,
     set_stdout (fun o => o ++ closing_banner self)
       (scanned self env (set_stdout (fun o => o ++ opening_banner self) w))).
Proof.
  unfold scanned. destruct (scan self) as [[cmd output_file]|] eqn:Hscan.
  - by apply run_enumeration_scan.
  - by apply run_enumeration_idle.
Qed.

(** X7: with a mode that is neither ["ctf"] nor ["real"],
    [run_enumeration] returns, having started no command, written no
    file and made no directory; when the mode is an ASCII string, what
    it prints is its two banners. *)
Theorem X7_unknown_mode_scans_nothing
    (self : Enumerator) (env : Env) (w : World) :
  mode self <> "ctf" ->
  mode self <> "real" ->
  let w' := (run_enumeration self env w).2 in
  (run_enumeration self env w).1 = Ret tt
  /\ files w' = files w
  /\ dirs w' = dirs w
  /\ spawned w' = spawned w
  /\ (Str.isascii (mode self) = true ->
      stdout w' = stdout w ++ opening_banner self ++ closing_banner self).
Proof.
  intros Hctf Hreal w'. subst w'. rewrite run_enumeration_idle.
  - unfold set_stdout. cbn [fst snd stdout files dirs spawned].
    repeat split. intros _. by rewrite <- List.app_assoc.
  - unfold scan. by rewrite !decide_False.
Qed.

Lemma X7_unknown_mode_scans_nothing_witness :
  let env := Sample.machine Sample.noon (Sample.nmap_exits 0) in
  let w' := (run_enumeration Scenario.udp env empty_world).2 in
  (mode Scenario.udp <> "ctf" /\ mode Scenario.udp <> "real"
   /\ Str.isascii (mode Scenario.udp) = true)
  /\ (run_enumeration Scenario.udp env empty_world).1 = Ret tt
  /\ files w' = ∅
  /\ dirs w' = ∅
  /\ spawned w' = []
  /\ stdout w'
     = [] ++ opening_banner Scenario.udp ++ closing_banner Scenario.udp.
Proof.
  split; [split; [discriminate | split; [discriminate | reflexivity]]|].
  destruct (X7_unknown_mode_scans_nothing Scenario.udp
              (Sample.machine Sample.noon (Sample.nmap_exits 0)) empty_world
              ltac:(discriminate) ltac:(discriminate))
    as (Hret & Hfiles & Hdirs & Hspawned & Hout).
  pose proof (Hout eq_refl) as Hprinted.
  repeat split; assumption.
Defined.

(** X8: [run_enumeration] always returns normally, and what it prints
    ends with the completion banner, also when the log file could not
    be opened or the scan could not be started: the value [run_command]
    returns is dropped. When the mode is an ASCII string, what it
    prints starts with the opening banner. *)
Theorem X8_run_enumeration_always_completes
    (self : Enumerator) (env : Env) (w : World) :
  (run_enumeration self env w).1 = Ret tt
  /\ (exists printed,
        stdout (run_enumeration self env w).2
        = stdout w ++ printed ++ closing_banner self)
  /\ (Str.isascii (mode self) = true ->
      exists printed,
        stdout (run_enumeration self env w).2
        = stdout w ++ opening_banner self ++ printed ++ closing_banner self).
Proof.
  assert (exists printed,
            stdout (run_enumeration self env w).2
            = stdout w ++ opening_banner self ++ printed
              ++ closing_banner self) as [printed Hout].
  { rewrite run_enumeration_eq.
    unfold scanned. cbn [snd]. unfold set_stdout at 1. cbn [stdout].
    destruct (scan self) as [[cmd output_file]|].
    - destruct (run_command_frame self cmd output_file env
                  (set_stdout (fun o => o ++ opening_banner self) w))
        as (_ & _ & printed & Hout).
      rewrite Hout.
      exists (announce cmd (log_path self output_file env) ++ printed).
      cbn [set_stdout stdout]. by rewrite <- !List.app_assoc.
    - exists []. cbn [set_stdout stdout]. by rewrite <- !List.app_assoc. }
  split; [by rewrite run_enumeration_eq|]. split.
  - exists (opening_banner self ++ printed). rewrite Hout.
    by rewrite <- !List.app_assoc.
  - intros _. by exists printed.
Qed.

Lemma X8_run_enumeration_always_completes_witness :
  let env := Scenario.read_only Sample.noon (Sample.nmap_exits 0) in
  Str.isascii (mode Sample.box) = true
  /\ (run_enumeration Sample.box env empty_world).1 = Ret tt
  /\ exists printed,
       stdout (run_enumeration Sample.box env empty_world).2
       = [] ++ opening_banner Sample.box ++ printed
         ++ closing_banner Sample.box.
Proof.
  split; [reflexivity|].
  destruct (X8_run_enumeration_always_completes Sample.box
              (Scenario.read_only Sample.noon (Sample.nmap_exits 0))
              empty_world) as (Hret & _ & Hout).
  split; [exact Hret | exact (Hout eq_refl)].
Defined.

(** ** [Enumerator.__init__] and [setup_output_dir] *)

Lemma init_ok (t m : string) (env : Env) (w : World) :
  mkdir_error env (home env // t) = None ->
  Enumerator_init t m env w
  = (Ret (mkEnumerator t m (home env // t)), initialised (home env // t) w).
Proof.
  intros Hmkdir. unfold Enumerator_init, setup_output_dir. unfold_effects.
  cbn [output_dir]. rewrite Hmkdir. unfold_effects.
  unfold initialised, output_dir_line. reflexivity.
Qed.

Lemma init_error (t m : string) (env : Env) (w : World) (e : PyExn) :
  mkdir_error env (home env // t) = Some e ->
  Enumerator_init t m env w = (Raise e, init_failed (home env // t) env w).
Proof.
  intros Hmkdir. unfold Enumerator_init, setup_output_dir. unfold_effects.
  cbn [output_dir]. rewrite Hmkdir. unfold_effects. reflexivity.
Qed.

Lemma ancestors_are_parents (p : Path) (n : nat) (d : string) :
  d ∈ Pathlib.str <$> take n (Pathlib.ancestors p) ->
  d ∈ Pathlib.str <$> Pathlib.self_and_parents p
  /\ d ∈ Pathlib.str <$> Pathlib.ancestors p.
Proof.
  intros Hd. apply list_elem_of_fmap in Hd as (q & -> & Hq).
  assert (q ∈ Pathlib.ancestors p) as Hq'.
  { rewrite <- (take_drop n (Pathlib.ancestors p)).
    apply elem_of_app. by left. }
  split; apply list_elem_of_fmap_2; [|done].
  unfold Pathlib.ancestors in Hq'. unfold Pathlib.self_and_parents.
  apply list_elem_of_fmap in Hq' as (i & -> & Hi).
  apply list_elem_of_fmap. exists i. split; [done|].
  apply elem_of_seq in Hi. apply elem_of_seq. lia.
Qed.

Lemma self_and_parents_all (p : Path) (n : nat) :
  (n < length (parts p))%nat ->
  Pathlib.str (mkPath (root p) (take (S n) (parts p)))
  ∈ Pathlib.str <$> Pathlib.self_and_parents p.
Proof.
  intros Hn. apply list_elem_of_fmap_2. unfold Pathlib.self_and_parents.
  apply list_elem_of_fmap. exists n. split; [done|]. apply elem_of_seq. lia.
Qed.

(** X9: when [mkdir] succeeds, constructing an Enumerator yields the
    output directory [home / target], ensures that it and every one of
    its ancestors below the root exist, keeps the directories that
    were there, prints one line naming it, and touches no file. *)
Theorem X9_init_creates_the_output_directory
    (t m : string) (env : Env) (w : World) :
  mkdir_error env (home env // t) = None ->
  let out_dir := home env // t in
  let w' := (Enumerator_init t m env w).2 in
  (Enumerator_init t m env w).1 = Ret (mkEnumerator t m out_dir)
  /\ dirs w ⊆ dirs w'
  /\ (forall n, (n < length (parts out_dir))%nat ->
        Pathlib.str (mkPath (root out_dir) (take (S n) (parts out_dir)))
        ∈ dirs w')
  /\ (parts out_dir <> [] -> Pathlib.str out_dir ∈ dirs w')
  /\ files w' = files w
  /\ spawned w' = spawned w
  /\ stdout w'
     = stdout w ++ [("[*] Output directory: " +:+ Pathlib.str out_dir) +:+ nl].
Proof.
  intros Hmkdir out_dir w'. subst w'. rewrite init_ok by done.
  unfold initialised. cbn [fst snd stdout files dirs spawned]. fold out_dir.
  assert (forall n, (n < length (parts out_dir))%nat ->
            Pathlib.str (mkPath (root out_dir) (take (S n) (parts out_dir)))
            ∈ dirs w ∪ list_to_set
                (Pathlib.str <$> Pathlib.self_and_parents out_dir)) as Hall.
  { intros n Hn. apply elem_of_union_r, elem_of_list_to_set.
    by apply self_and_parents_all. }
  split; [reflexivity|]. split; [apply union_subseteq_l|].
  split; [exact Hall|]. split; [|by repeat split].
  - intros Hparts.
    assert (length (parts out_dir) <> 0)%nat as Hlen
      by (by destruct (parts out_dir)).
    pose proof (Hall (pred (length (parts out_dir))) ltac:(lia)) as H.
    rewrite take_ge in H by lia. by destruct out_dir.
Qed.

Lemma X9_init_creates_the_output_directory_witness :
  let env := Sample.machine Sample.noon (Sample.nmap_exits 0) in
  let out_dir := home env // "10.10.10.1" in
  let w' := (Enumerator_init "10.10.10.1" "ctf" env empty_world).2 in
  mkdir_error env (home env // "10.10.10.1") = None
  /\ (Enumerator_init "10.10.10.1" "ctf" env empty_world).1
     = Ret (mkEnumerator "10.10.10.1" "ctf" out_dir)
  /\ (∅ : gset string) ⊆ dirs w'
  /\ (forall n, (n < length (parts out_dir))%nat ->
        Pathlib.str (mkPath (root out_dir) (take (S n) (parts out_dir)))
        ∈ dirs w')
  /\ (parts out_dir <> [] -> Pathlib.str out_dir ∈ dirs w')
  /\ files w' = ∅
  /\ spawned w' = []
  /\ stdout w'
     = [] ++ [("[*] Output directory: " +:+ Pathlib.str out_dir) +:+ nl].
Proof.
  split; [reflexivity|].
  apply (X9_init_creates_the_output_directory "10.10.10.1" "ctf"
           (Sample.machine Sample.noon (Sample.nmap_exits 0)) empty_world).
  reflexivity.
Defined.

Lemma main_mkdir_error (argv : list CliOpt) (env : Env) (w : World)
    (args : Args) (version : list string) (e : PyExn) :
  parse_args argv env w = (Ret args, w) ->
  child env version_cmd = Spawned version (Exited 0) ->
  mkdir_error env (home env // args_target args) = Some e ->
  main argv env w
  = (Raise e,
     init_failed (home env // args_target args) env
       (set_spawned (fun l => l ++ [version_cmd]) w)).
Proof.
  intros Hparse Hchild Hmkdir. unfold main. unfold bind at 1. rewrite Hparse.
  unfold bind at 1. unfold try_except.
  rewrite preflight_run, Hchild. cbn [checked Z.eqb].
  unfold bind at 1. by rewrite (init_error _ _ _ _ e).
Qed.

(** X10: when the output directory cannot be created, the exception of
    [mkdir] leaves [main] uncaught (exit status 1): nothing is printed,
    no file is created and no scan is started. The only directories
    that can have appeared are ancestors of the output directory: those
    [mkdir] made before it failed. *)
Theorem X10_mkdir_failure_is_fatal
    (argv : list CliOpt) (env : Env) (w : World) (args : Args)
    (version : list string) (e : PyExn) :
  parse_args argv env w = (Ret args, w) ->
  child env version_cmd = Spawned version (Exited 0) ->
  mkdir_error env (home env // args_target args) = Some e ->
  let out_dir := home env // args_target args in
  main argv env w
  = (Raise e,
     mkWorld (stdout w) (files w)
             (dirs w ∪ list_to_set
                (Pathlib.str
                   <$> take (mkdir_made env out_dir) (Pathlib.ancestors out_dir)))
             (spawned w ++ [["nmap"; "--version"]]))
  /\ exit_status (main argv env w).1 = 1
  /\ (forall d, d ∈ dirs (main argv env w).2 ->
        d ∈ dirs w \/ d ∈ Pathlib.str <$> Pathlib.ancestors out_dir).
Proof.
  intros Hparse Hchild Hmkdir out_dir.
  rewrite (main_mkdir_error argv env w args version e) by done.
  split; [reflexivity|]. split; [reflexivity|].
  intros d. unfold init_failed. cbn [snd dirs set_spawned].
  intros [Hd|Hd]%elem_of_union; [by left|right].
  apply elem_of_list_to_set in Hd.
  by apply (ancestors_are_parents _ (mkdir_made env out_dir)).
Qed.

Lemma X10_mkdir_failure_is_fatal_witness :
  let env := Scenario.half_made Sample.noon (Sample.nmap_exits 0) in
  let argv := [OptTarget "labs/10.10.10.1"; OptMode "ctf"] in
  let args := mkArgs "labs/10.10.10.1" "ctf" in
  (parse_args argv env empty_world = (Ret args, empty_world)
   /\ child env version_cmd = Spawned ["Nmap version 7.94" +:+ nl] (Exited 0)
   /\ mkdir_error env (home env // args_target args) = Some Scenario.denied)
  /\ main argv env empty_world
     = (Raise Scenario.denied,
        mkWorld [] ∅
          (∅ ∪ list_to_set ["/home"; "/home/kali"; "/home/kali/labs"])
          ([] ++ [["nmap"; "--version"]]))
  /\ exit_status (main argv env empty_world).1 = 1.
Proof.
  split; [repeat split; reflexivity|].
  destruct (X10_mkdir_failure_is_fatal
              [OptTarget "labs/10.10.10.1"; OptMode "ctf"]
              (Scenario.half_made Sample.noon (Sample.nmap_exits 0))
              empty_world
              (mkArgs "labs/10.10.10.1" "ctf") ["Nmap version 7.94" +:+ nl]
              Scenario.denied eq_refl eq_refl eq_refl)
    as (Hmain & Hstatus & _).
  split; [exact Hmain | exact Hstatus].
Defined.

(** ** Where the logs go *)

Lemma parse_absolute (s : string) :
  root (Pathlib.parse (String "/" s)) <> "".
Proof.
  unfold Pathlib.parse.
  destruct s as [|c s]; [discriminate|].
  destruct (decide (c = "/"%char)) as [->|Hc].
  - destruct s as [|c' s]; [discriminate|].
    destruct (decide (c' = "/"%char)) as [->|Hc']; [discriminate|].
    destruct c' as [[] [] [] [] [] [] [] []]; first [discriminate | done].
  - destruct c as [[] [] [] [] [] [] [] []]; first [discriminate | done].
Qed.

(** X11: a target that starts with a slash replaces the home directory:
    the output directory is the target itself, read as a path. *)
Theorem X11_absolute_target_leaves_home
    (rest m : string) (env : Env) (w : World) :
  mkdir_error env (home env // String "/" rest) = None ->
  exists self,
    (Enumerator_init (String "/" rest) m env w).1 = Ret self
    /\ target self = String "/" rest
    /\ output_dir self = Pathlib.parse (String "/" rest).
Proof.
  intros Hmkdir. rewrite init_ok by done. eexists. split; [reflexivity|].
  split; [reflexivity|]. cbn [output_dir]. unfold Pathlib.joinpath.
  rewrite decide_False; [done|]. apply parse_absolute.
Qed.

Lemma X11_absolute_target_leaves_home_witness :
  let env := Sample.machine Sample.noon (Sample.nmap_exits 0) in
  mkdir_error env (home env // "/etc") = None
  /\ exists self,
       (Enumerator_init "/etc" "ctf" env empty_world).1 = Ret self
       /\ target self = "/etc"
       /\ output_dir self = mkPath "/" ["etc"].
Proof.
  split; [reflexivity|].
  apply (X11_absolute_target_leaves_home "etc" "ctf"
           (Sample.machine Sample.noon (Sample.nmap_exits 0)) empty_world).
  reflexivity.
Defined.

(** X12: with the empty target, or the target ["."], the output
    directory is the home directory itself. *)
Theorem X12_empty_target_logs_into_home
    (t m : string) (env : Env) (w : World) :
  t = "" \/ t = "." ->
  mkdir_error env (home env // t) = None ->
  (Enumerator_init t m env w).1 = Ret (mkEnumerator t m (home env)).
Proof.
  intros Ht Hmkdir. rewrite init_ok by done. cbn [fst]. do 2 f_equal.
  destruct (home env) as [r ps].
  destruct Ht as [-> | ->]; unfold Pathlib.joinpath; cbn;
    by rewrite List.app_nil_r.
Qed.

Lemma X12_empty_target_logs_into_home_witness :
  let env := Sample.machine Sample.noon (Sample.nmap_exits 0) in
  (("" : string) = "" \/ ("" : string) = ".")
  /\ mkdir_error env (home env // "") = None
  /\ (Enumerator_init "" "ctf" env empty_world).1
     = Ret (mkEnumerator "" "ctf" (mkPath "/" ["home"; "kali"])).
Proof.
  split; [left; reflexivity|]. split; [reflexivity|].
  apply (X12_empty_target_logs_into_home "" "ctf"
           (Sample.machine Sample.noon (Sample.nmap_exits 0)) empty_world);
    [left; reflexivity | reflexivity].
Defined.

Lemma join_then_sep (sep x : string) (l : list string) :
  Str.join sep (x :: l) +:+ sep
  = Str.concat ((fun y => y +:+ sep) <$> (x :: l)).
Proof.
  revert x. induction l as [|y l IH]; intros x.
  - cbn [fmap list_fmap Str.concat]. by rewrite StrFacts.app_nil_r.
  - change (Str.join sep (x :: y :: l))
      with (x +:+ sep +:+ Str.join sep (y :: l)).
    rewrite !StrFacts.app_assoc, IH.
    cbn [fmap list_fmap Str.concat]. by rewrite !StrFacts.app_assoc.
Qed.

(** X13: under a log name without a slash, such as the two the program
    uses, the log is a file directly in the output directory, named by
    the timestamp, an underscore and the log name. *)
Theorem X13_log_is_directly_in_the_output_directory
    (self : Enumerator) (output_file : string) (env : Env) :
  Str.split_slash output_file = [output_file] ->
  parts (output_dir self) <> [] ->
  Pathlib.str (log_path self output_file env)
  = Pathlib.str (output_dir self) +:+ "/"
    +:+ Datetime.strftime (now env) +:+ "_" +:+ output_file.
Proof.
  intros Hsplit Hparts.
  unfold log_path, output_path, Pathlib.joinpath, Pathlib.parse.
  set (ts := Datetime.strftime (now env)).
  assert (ts +:+ "_" +:+ output_file = (ts +:+ "_") +:+ output_file) as Hname
    by by rewrite StrFacts.app_assoc.
  rewrite Hname.
  assert (Pathlib.splitroot ((ts +:+ "_") +:+ output_file)
          = ("", (ts +:+ "_") +:+ output_file)) as ->.
  { apply (PathFacts.splitroot_relative
             (Datetime.digit (year (now env) / 1000))).
    apply PathFacts.digit_not_slash. }
  rewrite (PathFacts.split_slash_prefix _ _ output_file [])
    by (apply PathFacts.timestamp_no_slash || done).
  cbn [List.filter].
  assert (Pathlib.keep_part ((ts +:+ "_") +:+ output_file) = true) as ->.
  { unfold Pathlib.keep_part.
    rewrite !bool_decide_eq_false_2; [done|..]; intros Heq;
      apply (f_equal String.length) in Heq;
      rewrite !StrFacts.length_app in Heq; unfold ts in Heq;
      rewrite StrFacts.strftime_length in Heq; cbn in Heq; lia. }
  cbn [root parts]. rewrite decide_True by done.
  rewrite PathFacts.str_of_parts by (by destruct (parts (output_dir self))).
  destruct (output_dir self) as [r ps]. cbn [root parts] in *.
  rewrite PathFacts.str_of_parts by done.
  rewrite PathFacts.join_app_cons. cbn [fmap list_fmap Str.concat].
  destruct ps as [|x ps]; [done|]. rewrite <- join_then_sep.
  by rewrite StrFacts.app_nil_r, !StrFacts.app_assoc.
Qed.

Lemma X13_log_is_directly_in_the_output_directory_witness :
  let env := Sample.machine Sample.noon (Sample.nmap_exits 0) in
  (Str.split_slash "nmap_full.txt" = ["nmap_full.txt"]
   /\ parts (output_dir Sample.site) <> [])
  /\ Pathlib.str (log_path Sample.site "nmap_full.txt" env)
     = "/home/kali/example.com" +:+ "/"
       +:+ "20240309_120000" +:+ "_" +:+ "nmap_full.txt".
Proof.
  split; [split; [reflexivity | discriminate]|].
  apply (X13_log_is_directly_in_the_output_directory
           Sample.site "nmap_full.txt"
           (Sample.machine Sample.noon (Sample.nmap_exits 0)));
    [reflexivity | discriminate].
Defined.

(** ** [parse_args], in full *)

Lemma consume_Done (argv : list CliOpt) :
  forall ns ex ns' ex',
    consume argv ns ex = Done ns' ex'
    <-> forallb passed argv = true
        /\ ns' = updated argv ns
        /\ ex' = ex ++ unrecognized argv.
Proof.
  induction argv as [|[v|v| | |s] rest IH]; intros ns ex ns' ex';
    cbn [consume forallb passed stored].
  - unfold updated, unrecognized. cbn. rewrite List.app_nil_r. destruct ns.
    split.
    + intros [= <- <-]. by repeat split.
    + by intros (_ & -> & ->).
  - rewrite IH. unfold updated, targets, modes, unrecognized.
    cbn [omap list_omap target_of mode_of unrecognized_of andb].
    fold (targets rest). fold (modes rest). rewrite last_cons.
    cbn [ns_target ns_mode]. by destruct (last (targets rest)).
  - unfold updated, targets, modes, unrecognized.
    cbn [omap list_omap target_of mode_of unrecognized_of].
    fold (targets rest). fold (modes rest). fold (unrecognized rest).
    rewrite last_cons.
    case_bool_decide as Hv; cbn [andb].
    + rewrite IH. unfold updated. cbn [ns_target ns_mode].
      by destruct (last (modes rest)).
    + split; [done | by intros [? _]].
  - split; [done | by intros [? _]].
  - split; [done | by intros [? _]].
  - rewrite IH. unfold updated, targets, modes, unrecognized.
    cbn [omap list_omap target_of mode_of unrecognized_of andb].
    fold (targets rest). fold (modes rest). fold (unrecognized rest).
    by rewrite <- List.app_assoc.
Qed.

Lemma consume_Help (argv : list CliOpt) :
  forall ns ex,
    consume argv ns ex = Help
    <-> exists before rest,
          argv = before ++ OptHelp :: rest /\ forallb passed before = true.
Proof.
  induction argv as [|o argv IH]; intros ns ex.
  - cbn [consume]. split; [done|].
    intros (before & rest & Heq & _). by destruct before.
  - assert (forall ns1 ex1,
              passed o = true ->
              consume argv ns1 ex1 = Help
              <-> exists before rest,
                    o :: argv = before ++ OptHelp :: rest
                    /\ forallb passed before = true) as Hstep.
    { intros ns1 ex1 Ho. rewrite IH. split.
      - intros (before & rest & -> & Hall). exists (o :: before), rest.
        split; [done|]. cbn [forallb]. by rewrite Ho.
      - intros (before & rest & Heq & Hall).
        destruct before as [|o' before]; cbn in Heq.
        + injection Heq as -> _. discriminate Ho.
        + injection Heq as <- ->. exists before, rest. split; [done|].
          cbn [forallb] in Hall. by apply andb_prop in Hall as [_ ?]. }
    assert (passed o = false ->
            o <> OptHelp ->
            ~ exists before rest,
                o :: argv = before ++ OptHelp :: rest
                /\ forallb passed before = true) as Hstop.
    { intros Ho Hne (before & rest & Heq & Hall).
      destruct before as [|o' before]; cbn in Heq.
      - by injection Heq as -> _.
      - injection Heq as <- _. cbn [forallb] in Hall.
        apply andb_prop in Hall as [? _]. congruence. }
    destruct o as [v|v| | |s]; cbn [consume].
    + by apply Hstep.
    + case_bool_decide as Hv.
      * apply Hstep. cbn. by rewrite bool_decide_eq_true_2.
      * split; [done|]. intros H. exfalso. revert H. apply Hstop; [|done].
        cbn. by rewrite bool_decide_eq_false_2.
    + split; [|done]. intros _. by exists [], argv.
    + split; [done|]. intros H. exfalso. revert H. by apply Hstop.
    + by apply Hstep.
Qed.

Lemma stored_passed (argv : list CliOpt) :
  forallb stored argv = true
  <-> forallb passed argv = true /\ unrecognized argv = [].
Proof.
  induction argv as [|[v|v| | |s] rest IH];
    unfold unrecognized in *;
    cbn [forallb stored passed omap list_omap unrecognized_of andb];
    try tauto.
  - destruct (bool_decide (v ∈ mode_choices)); cbn [andb]; [tauto|].
    split; [done | by intros [? _]].
  - split; [done | by intros [? _]].
  - split; [done | by intros [? _]].
  - split; [done | by intros [_ ?]].
Qed.

(** The three ways [parse_args] can go. *)
Lemma parse_args_cases (argv : list CliOpt) (env : Env) (w : World) :
  (exists args, parse_args argv env w = (Ret args, w))
  \/ parse_args argv env w = (Exit 0, helped env w)
  \/ parse_args argv env w = (Exit 2, w).
Proof.
  destruct (consume argv (mkNamespace None None) []) as [ns ex| |] eqn:Hc.
  - rewrite (parse_args_done _ _ _ _ _ Hc).
    destruct (ns_target ns), (ns_mode ns), ex; eauto.
  - right; left. by apply parse_args_help.
  - right; right. by apply parse_args_failed.
Qed.

Lemma parse_args_accepted (argv : list CliOpt) (env : Env) (w : World)
    (args : Args) :
  parse_args argv env w = (Ret args, w)
  <-> forallb stored argv = true
      /\ last (targets argv) = Some (args_target args)
      /\ last (modes argv) = Some (args_mode args).
Proof.
  destruct args as [t m]. cbn [args_target args_mode].
  rewrite stored_passed.
  destruct (consume argv (mkNamespace None None) []) as [ns ex| |] eqn:Hc.
  - rewrite (parse_args_done _ _ _ _ _ Hc).
    apply consume_Done in Hc as (Hall & -> & ->). unfold updated.
    cbn [ns_target ns_mode app].
    destruct (last (targets argv)), (last (modes argv)), (unrecognized argv);
      (split;
       [ intros H; first [discriminate H | by injection H as -> ->]
       | intros ([_ Hex] & Ht & Hm);
         first [discriminate Ht | discriminate Hm | discriminate Hex
               | by injection Ht as ->; injection Hm as ->] ]).
  - rewrite (parse_args_help _ _ _ Hc). split; [done|].
    intros ([Hall Hex] & _).
    assert (consume argv (mkNamespace None None) []
            = Done (updated argv (mkNamespace None None))
                   ([] ++ unrecognized argv)) as Hc'
      by by apply consume_Done.
    congruence.
  - rewrite (parse_args_failed _ _ _ Hc). split; [done|].
    intros ([Hall Hex] & _).
    assert (consume argv (mkNamespace None None) []
            = Done (updated argv (mkNamespace None None))
                   ([] ++ unrecognized argv)) as Hc'
      by by apply consume_Done.
    congruence.
Qed.

Lemma parse_args_helped (argv : list CliOpt) (env : Env) (w : World) :
  parse_args argv env w = (Exit 0, helped env w)
  <-> exists before rest,
        argv = before ++ OptHelp :: rest /\ forallb passed before = true.
Proof.
  rewrite <- (consume_Help argv (mkNamespace None None) []).
  destruct (consume argv (mkNamespace None None) []) as [ns ex| |] eqn:Hc.
  - rewrite (parse_args_done _ _ _ _ _ Hc).
    by destruct (ns_target ns), (ns_mode ns), ex.
  - by rewrite (parse_args_help _ _ _ Hc).
  - by rewrite (parse_args_failed _ _ _ Hc).
Qed.

(** X14: [parse_args] accepts a command line exactly when each of its
    steps gives a target or one of the modes ["ctf"] and ["real"], and
    both a target and a mode are given; the arguments are then the last
    target and the last mode given. It prints the help and ends in
    [sys.exit(0)] exactly when the help action runs before any usage
    error. Any other command line ends in [sys.exit(2)] with nothing
    done. *)
Theorem X14_parse_args_accepts_exactly
    (argv : list CliOpt) (env : Env) (w : World) :
  (forall args,
     parse_args argv env w = (Ret args, w)
     <-> forallb stored argv = true
         /\ last (targets argv) = Some (args_target args)
         /\ last (modes argv) = Some (args_mode args))
  /\ (parse_args argv env w
      = (Exit 0, mkWorld (stdout w ++ [format_help env]) (files w) (dirs w)
                         (spawned w))
      <-> exists before rest,
            argv = before ++ OptHelp :: rest
            /\ forallb passed before = true)
  /\ ((exists args, parse_args argv env w = (Ret args, w))
      \/ parse_args argv env w
         = (Exit 0, mkWorld (stdout w ++ [format_help env]) (files w) (dirs w)
                            (spawned w))
      \/ parse_args argv env w = (Exit 2, w)).
Proof.
  split; [intros args; apply parse_args_accepted|].
  split; [apply parse_args_helped | apply parse_args_cases].
Qed.

(** ** [main], in full *)

Lemma checked_cases (c : Child) :
  (exists e, checked c = Raise e)
  \/ exists version, c = Spawned version (Exited 0).
Proof.
  destruct c as [e|out [rc|e]]; cbn [checked]; eauto.
  destruct (Z.eqb_spec rc 0) as [->|Hne]; eauto.
Qed.

(** Every way [main] can go. *)
Lemma main_cases (argv : list CliOpt) (env : Env) (w : World) :
  (parse_args argv env w = (Exit 2, w) /\ main argv env w = (Exit 2, w))
  \/ (parse_args argv env w = (Exit 0, helped env w)
      /\ main argv env w = (Exit 0, helped env w))
  \/ exists args,
       parse_args argv env w = (Ret args, w)
       /\ ((exists e,
              checked (child env version_cmd) = Raise e
              /\ main argv env w
                 = if preflight_catches (exn_class e)
                   then (Exit 1,
                         mkWorld (stdout w ++ [preflight_line]) (files w)
                                 (dirs w) (spawned w ++ [version_cmd]))
                   else (Raise e,
                         set_spawned (fun l => l ++ [version_cmd]) w))
           \/ (exists version e,
                 child env version_cmd = Spawned version (Exited 0)
                 /\ mkdir_error env (home env // args_target args) = Some e
                 /\ main argv env w
                    = (Raise e,
                       init_failed (home env // args_target args) env
                         (set_spawned (fun l => l ++ [version_cmd]) w)))
           \/ (exists version,
                 child env version_cmd = Spawned version (Exited 0)
                 /\ mkdir_error env (home env // args_target args) = None
                 /\ main argv env w
                    = run_enumeration (enumerator_of args env) env
                        (ready (home env // args_target args) w))).
Proof.
  destruct (parse_args_cases argv env w) as [[args Hparse]|[Hparse|Hparse]].
  - right; right. exists args. split; [done|].
    destruct (checked_cases (child env version_cmd))
      as [[e He]|[version Hchild]].
    + left. exists e. split; [done|]. by apply (main_preflight_raised _ _ _ args).
    + right.
      destruct (mkdir_error env (home env // args_target args)) as [e|]
        eqn:Hmkdir.
      * left. exists version, e. split; [done|]. split; [done|].
        by apply (main_mkdir_error _ _ _ args version).
      * right. exists version. split; [done|]. split; [done|].
        by apply (main_runs _ _ _ args Hparse version).
  - right; left. split; [done|]. by apply main_parse_exit.
  - left. split; [done|]. by apply main_parse_exit.
Qed.

(** X15: the exit status of the program is 0, 1 or 2. It is 2 exactly
    when [parse_args] ends in a usage error. It is 0 exactly when
    [parse_args] prints the help, or when the command line is accepted,
    the version query returns zero and the output directory can be
    made: what happens to the scan afterwards does not change it. *)
Theorem X15_exit_status_of_main
    (argv : list CliOpt) (env : Env) (w : World) :
  (exit_status (main argv env w).1 = 0
   \/ exit_status (main argv env w).1 = 1
   \/ exit_status (main argv env w).1 = 2)
  /\ (exit_status (main argv env w).1 = 2
      <-> parse_args argv env w = (Exit 2, w))
  /\ (exit_status (main argv env w).1 = 0
      <-> (parse_args argv env w).1 = Exit 0
          \/ exists args version,
               parse_args argv env w = (Ret args, w)
               /\ child env version_cmd = Spawned version (Exited 0)
               /\ mkdir_error env (home env // args_target args) = None).
Proof.
  destruct (main_cases argv env w)
    as [[Hparse Hmain]
       |[[Hparse Hmain]
        |(args & Hparse
          & [(e & He & Hmain)
            |[(version & e & Hchild & Hmkdir & Hmain)
             |(version & Hchild & Hmkdir & Hmain)]])]].
  - rewrite Hmain, Hparse. cbn [fst exit_status]. split; [by right; right|].
    split; [done|]. split; [done|].
    intros [H|(args & version & Hparse' & _)]; congruence.
  - rewrite Hmain, Hparse. cbn [fst exit_status]. split; [by left|].
    split; [split; [done|congruence]|]. split; [by left | done].
  - assert (exit_status (main argv env w).1 = 1) as ->
      by (rewrite Hmain; by destruct (preflight_catches _)).
    rewrite Hparse. cbn [fst].
    split; [by right; left|]. split; (split; [done|]).
    + congruence.
    + intros [H|(args' & version & _ & Hchild & _)]; [done|].
      rewrite Hchild in He. discriminate He.
  - rewrite Hmain, Hparse. cbn [fst exit_status]. split; [by right; left|].
    split; (split; [done|]).
    + congruence.
    + intros [H|(args' & version' & Hparse' & _ & Hmkdir')]; [done|].
      injection Hparse' as <-. congruence.
  - rewrite Hmain, run_enumeration_eq, Hparse. cbn [fst exit_status].
    split; [by left|]. split; [split; [done|congruence]|].
    split; [|done]. intros _. right. by exists args, version.
Qed.

Lemma scan_cmd (self : Enumerator) (cmd : list string) (output_file : string) :
  scan self = Some (cmd, output_file) ->
  cmd = ctf_cmd (target self) \/ cmd = real_cmd (target self).
Proof.
  unfold scan. intros H. repeat case_decide; simplify_eq; auto.
Qed.

Lemma parsed_target (argv : list CliOpt) (env : Env) (w : World) (args : Args) :
  parse_args argv env w = (Ret args, w) -> OptTarget (args_target args) ∈ argv.
Proof.
  intros Hparse.
  apply parse_args_accepted in Hparse as (_ & Ht & _).
  apply last_Some in Ht as [l Ht].
  assert (args_target args ∈ targets argv) as Hin
    by (rewrite Ht; apply elem_of_app; right; by left).
  apply list_elem_of_omap in Hin as ([v|v| | |s] & Hv & Heq); cbn in Heq;
    by simplify_eq.
Qed.

(** X16: [main] starts at most two commands, whatever it is given: the
    version query first, then at most one scan, which is one of the two
    fixed command lines on a target given on the command line. *)
Theorem X16_main_starts_at_most_two_commands
    (argv : list CliOpt) (env : Env) (w : World) :
  exists started,
    spawned (main argv env w).2 = spawned w ++ started
    /\ (started = []
        \/ started = [["nmap"; "--version"]]
        \/ exists t,
             OptTarget t ∈ argv
             /\ (started = [ ["nmap"; "--version"];
                             ["nmap"; "-sC"; "-sV"; "-Pn"; "-T4"; t] ]
                 \/ started = [ ["nmap"; "--version"];
                                ["nmap"; "-sV"; "-Pn"; "--open"; "-p-"; t] ])).
Proof.
  destruct (main_cases argv env w)
    as [[Hparse Hmain]
       |[[Hparse Hmain]
        |(args & Hparse
          & [(e & He & Hmain)
            |[(version & e & Hchild & Hmkdir & Hmain)
             |(version & Hchild & Hmkdir & Hmain)]])]];
    rewrite Hmain.
  - exists []. split; [by rewrite List.app_nil_r | by left].
  - exists []. split; [by rewrite List.app_nil_r | by left].
  - exists [version_cmd]. split; [by destruct (preflight_catches _)|].
    by right; left.
  - exists [version_cmd]. split; [done | by right; left].
  - rewrite run_enumeration_eq. cbn [snd]. unfold set_stdout at 1.
    cbn [spawned]. unfold scanned.
    destruct (scan (enumerator_of args env)) as [[cmd output_file]|] eqn:Hscan.
    + rewrite run_command_spawned.
      unfold ready, initialised, set_spawned, set_stdout. cbn [spawned].
      destruct (open_error _ _).
      * exists [version_cmd]. split; [by rewrite List.app_nil_r|].
        by right; left.
      * exists [version_cmd; cmd]. split; [by rewrite <- List.app_assoc|].
        right; right. exists (args_target args).
        split; [by apply (parsed_target argv env w)|].
        apply scan_cmd in Hscan as [-> | ->]; [by left | by right].
    + exists [version_cmd]. split; [done | by right; left].
Qed.

(** X17: [main] changes at most one file, removes no directory, and
    only adds to what the terminal shows. *)
Theorem X17_main_changes_at_most_one_file
    (argv : list CliOpt) (env : Env) (w : World) :
  (exists p, forall q,
     q <> p -> files (main argv env w).2 !! q = files w !! q)
  /\ dirs w ⊆ dirs (main argv env w).2
  /\ stdout w `prefix_of` stdout (main argv env w).2.
Proof.
  destruct (main_cases argv env w)
    as [[Hparse Hmain]
       |[[Hparse Hmain]
        |(args & Hparse
          & [(e & He & Hmain)
            |[(version & e & Hchild & Hmkdir & Hmain)
             |(version & Hchild & Hmkdir & Hmain)]])]];
    rewrite Hmain.
  - split; [by exists ""|]. split; [done | reflexivity].
  - unfold helped. cbn [snd files dirs stdout].
    split; [by exists ""|]. split; [done | by apply prefix_app_r].
  - destruct (preflight_catches _); cbn [snd files dirs stdout set_spawned].
    + split; [by exists ""|]. split; [done | by apply prefix_app_r].
    + split; [by exists ""|]. split; [done | reflexivity].
  - unfold init_failed. cbn [snd files dirs stdout set_spawned].
    split; [by exists ""|]. split; [apply union_subseteq_l | reflexivity].
  - rewrite run_enumeration_eq. cbn [snd].
    set (w1 := scanned _ _ _). unfold set_stdout. cbn [files dirs stdout].
    subst w1. unfold scanned.
    destruct (scan (enumerator_of args env)) as [[cmd output_file]|].
    + destruct (run_command_frame (enumerator_of args env) cmd output_file env
                  (set_stdout
                     (fun o => o ++ opening_banner (enumerator_of args env))
                     (ready (home env // args_target args) w)))
        as (Hdirs & Hfiles & printed & Hout).
      split; [|split].
      * exists (Pathlib.str
                  (log_path (enumerator_of args env) output_file env)).
        intros q Hq. by rewrite Hfiles.
      * rewrite Hdirs. unfold ready, initialised, set_stdout. cbn [dirs].
        apply union_subseteq_l.
      * rewrite Hout. unfold ready, initialised, set_stdout, set_spawned.
        cbn [stdout]. rewrite <- !List.app_assoc. by apply prefix_app_r.
    + unfold ready, initialised, set_stdout, set_spawned.
      cbn [files dirs stdout]. split; [by exists ""|].
      split; [apply union_subseteq_l|].
      rewrite <- !List.app_assoc. by apply prefix_app_r.
Qed.

(** X18: a whole run. When the command line is accepted, the version
    query returns zero, the directory can be made, the log can be opened
    and the scan exits, [main] returns having printed, in this order,
    the output directory, the opening banner, the two announcements, the
    lines of the scan and not those of the version query, the closing
    line and the completion banner; it has made the output directory,
    written the one log, and started the two commands. *)
Theorem X18_a_whole_run
    (argv : list CliOpt) (env : Env) (w : World) (args : Args)
    (cmd : list string) (output_file : string)
    (version out : list string) (returncode : Z) :
  let self := enumerator_of args env in
  parse_args argv env w = (Ret args, w) ->
  child env version_cmd = Spawned version (Exited 0) ->
  mkdir_error env (output_dir self) = None ->
  scan self = Some (cmd, output_file) ->
  open_error env (log_path self output_file env) = None ->
  child env cmd = Spawned out (Exited returncode) ->
  main argv env w
  = (Ret tt,
     mkWorld
       (stdout w
        ++ [output_dir_line (output_dir self)]
        ++ opening_banner self
        ++ announce cmd (log_path self output_file env)
        ++ out
        ++ [if returncode =? 0 then success_line
            else warning_line returncode]
        ++ closing_banner self)
       (<[Pathlib.str (log_path self output_file env) :=
            header_text self cmd (Datetime.strftime (now env))
            +:+ Str.concat out]> (files w))
       (dirs w ∪ list_to_set
          (Pathlib.str <$> Pathlib.self_and_parents (output_dir self)))
       (spawned w ++ [["nmap"; "--version"]; cmd])).
Proof.
  intros self Hparse Hversion Hmkdir Hscan Hopen Hchild.
  rewrite (main_runs argv env w args Hparse version) by done.
  fold (enumerator_of args env). fold self.
  rewrite (run_enumeration_scan self _ _ cmd output_file) by done.
  rewrite (run_command_exited _ _ _ _ _ out returncode) by done.
  unfold after_child, set_stdout, output_dir_line.
  cbn [fst snd stdout files dirs spawned].
  f_equal. f_equal; by rewrite <- ?List.app_assoc.
Qed.

Lemma X18_a_whole_run_witness :
  let env := Sample.machine Sample.noon (Sample.nmap_exits 0) in
  let argv := [OptTarget "example.com"; OptMode "real"] in
  let args := mkArgs "example.com" "real" in
  let self := enumerator_of args env in
  let cmd := real_cmd "example.com" in
  (parse_args argv env empty_world = (Ret args, empty_world)
   /\ child env version_cmd = Spawned ["Nmap version 7.94" +:+ nl] (Exited 0)
   /\ mkdir_error env (output_dir self) = None
   /\ scan self = Some (cmd, "nmap_full.txt")
   /\ open_error env (log_path self "nmap_full.txt" env) = None
   /\ child env cmd = Spawned ["Starting Nmap 7.94" +:+ nl] (Exited 0))
  /\ main argv env empty_world
     = (Ret tt,
        mkWorld
          ([]
           ++ [output_dir_line (output_dir self)]
           ++ opening_banner self
           ++ announce cmd (log_path self "nmap_full.txt" env)
           ++ ["Starting Nmap 7.94" +:+ nl]
           ++ [success_line]
           ++ closing_banner self)
          (<[Pathlib.str (log_path self "nmap_full.txt" env) :=
               header_text self cmd (Datetime.strftime (now env))
               +:+ Str.concat ["Starting Nmap 7.94" +:+ nl]]> ∅)
          (∅ ∪ list_to_set
             (Pathlib.str <$> Pathlib.self_and_parents (output_dir self)))
          ([] ++ [["nmap"; "--version"]; cmd])).
Proof.
  split; [repeat split; reflexivity|].
  apply (X18_a_whole_run
           [OptTarget "example.com"; OptMode "real"]
           (Sample.machine Sample.noon (Sample.nmap_exits 0)) empty_world
           (mkArgs "example.com" "real")
           (real_cmd "example.com") "nmap_full.txt"
           ["Nmap version 7.94" +:+ nl] ["Starting Nmap 7.94" +:+ nl] 0);
    reflexivity.
Defined.

(** X19: two runs into the same directory whose clocks, read to the
    second, differ are logged at different paths, whatever the log
    names: the timestamp tells the second. The years are those [%Y]
    prints with four digits. *)
Theorem X19_distinct_seconds_give_distinct_logs
    (self1 self2 : Enumerator) (file1 file2 : string) (env1 env2 : Env) :
  output_dir self1 = output_dir self2 ->
  Datetime.valid (now env1) -> 1000 <= Z.of_nat (year (now env1)) ->
  Datetime.valid (now env2) -> 1000 <= Z.of_nat (year (now env2)) ->
  now env1 <> now env2 ->
  Pathlib.str (log_path self1 file1 env1)
  <> Pathlib.str (log_path self2 file2 env2).
Proof.
  intros Hdir Hv1 _ Hv2 _ Hne Heq. apply Hne.
  apply DatetimeFacts.strftime_inj; [done..|].
  by apply (PathFacts.log_path_timestamp self1 self2 file1 file2).
Qed.

Lemma X19_distinct_seconds_give_distinct_logs_witness :
  let env1 := Sample.machine Sample.noon (Sample.nmap_exits 0) in
  let env2 := Sample.machine Sample.midnight (Sample.nmap_exits 0) in
  (Datetime.valid (now env1) /\ 1000 <= Z.of_nat (year (now env1))
   /\ Datetime.valid (now env2) /\ 1000 <= Z.of_nat (year (now env2))
   /\ now env1 <> now env2)
  /\ Pathlib.str (log_path Sample.box "nmap_ctf.txt" env1)
     <> Pathlib.str (log_path Sample.box "nmap_ctf.txt" env2).
Proof.
  assert (Datetime.valid Sample.noon) as Hnoon
    by (unfold Datetime.valid; cbn; lia).
  assert (Datetime.valid Sample.midnight) as Hmidnight
    by (unfold Datetime.valid; cbn; lia).
  split.
  - split; [exact Hnoon|]. split; [cbn; lia|]. split; [exact Hmidnight|].
    split; [cbn; lia | discriminate].
  - apply (X19_distinct_seconds_give_distinct_logs
             Sample.box Sample.box "nmap_ctf.txt" "nmap_ctf.txt"
             (Sample.machine Sample.noon (Sample.nmap_exits 0))
             (Sample.machine Sample.midnight (Sample.nmap_exits 0)));
      [reflexivity | exact Hnoon | cbn; lia | exact Hmidnight | cbn; lia
      | discriminate].
Defined.

(** X20: a version query that cannot be started for another reason than
    a missing file, such as a permission error, is not handled: the
    exception leaves [main] (exit status 1) without the diagnostic, and
    nothing else has happened. *)
Theorem X20_other_preflight_failures_are_uncaught
    (argv : list CliOpt) (env : Env) (w : World) (args : Args) (e : PyExn) :
  parse_args argv env w = (Ret args, w) ->
  child env version_cmd = SpawnError e ->
  exn_class e <> FileNotFoundError ->
  exn_class e <> CalledProcessError ->
  main argv env w
  = (Raise e,
     mkWorld (stdout w) (files w) (dirs w)
             (spawned w ++ [["nmap"; "--version"]]))
  /\ exit_status (main argv env w).1 = 1.
Proof.
  intros Hparse Hchild Hnf Hcp.
  rewrite (main_preflight_raised argv env w args Hparse e)
    by (by rewrite Hchild).
  unfold preflight_catches. by rewrite !bool_decide_eq_false_2.
Qed.

Lemma X20_other_preflight_failures_are_uncaught_witness :
  let env := Sample.machine Sample.noon
               (fun _ => SpawnError Scenario.denied) in
  let argv := [OptTarget "10.10.10.1"; OptMode "ctf"] in
  (parse_args argv env empty_world
   = (Ret (mkArgs "10.10.10.1" "ctf"), empty_world)
   /\ child env version_cmd = SpawnError Scenario.denied
   /\ exn_class Scenario.denied <> FileNotFoundError
   /\ exn_class Scenario.denied <> CalledProcessError)
  /\ main argv env empty_world
     = (Raise Scenario.denied,
        mkWorld [] ∅ ∅ ([] ++ [["nmap"; "--version"]]))
  /\ exit_status (main argv env empty_world).1 = 1.
Proof.
  split; [split; [reflexivity|split; [reflexivity|split; discriminate]]|].
  apply (X20_other_preflight_failures_are_uncaught
           [OptTarget "10.10.10.1"; OptMode "ctf"]
           (Sample.machine Sample.noon (fun _ => SpawnError Scenario.denied))
           empty_world (mkArgs "10.10.10.1" "ctf") Scenario.denied);
    [reflexivity | reflexivity | discriminate | discriminate].
Defined.
